(** * PokeAlarm.LocationServices.GMaps: a shallow embedding

    The client of a private Nominatim server: a sliding-window rate limiter,
    a request dispatcher ([_make_request]), and the two memoizing operations
    [geocode] and [reverse_geocode].

    The module is Python 2.7 code ([e.message], [u"..."] literals).  The
    embedding is sequential: the [synchronize_with] decorator serialises the
    calls, so each operation runs from start to end on the client object.

    Effects are explicit.  The client object ([GMaps]) and the outside
    world (clock, ordered trace of sleeps, HTTP requests and log records)
    are threaded through a state-and-exception monad; the reply of the
    server to the one HTTP request a dispatch can send is an argument of
    the operation.  An exception is its class; its message is not modelled.

    Not embedded: [_create_session] and the session object (what its [get]
    answers is the [http_reply] argument), the fields [_lock] and
    [_time_limit], which no method reads, and the stub [distance_matrix]. *)

From Stdlib Require Import ZArith Ascii String List DecimalString.
From stdpp Require Import base decidable option countable gmap strings list.

Local Open Scope string_scope.
Local Open Scope Z_scope.

(** ** Python values *)

(** Python's [float].  It is not code of the repository; the development is
    parametric in it.  Equality on [pyfloat] stands for equality of floats
    as dictionary keys. *)
Class PyFloat := {
  pyfloat : Type;
  pyfloat_eq_dec :: EqDecision pyfloat;
  pyfloat_countable :: Countable pyfloat;
}.

(** The [Unknown] constants of [PokeAlarm/__init__.py] that the module reads. *)
Class UnknownConsts := {
  Unknown_SMALL : string;
  Unknown_REGULAR : string;
  Unknown_EMPTY : string;
}.

Section Values.
Context `{PyFloat}.

(** What [request.json()] returns, and what a [params] dict holds.  A JSON
    object is the list of its items; its keys are distinct, as in any
    Python dict. *)
#[warnings="-register-all"]
Inductive pyval :=
  | VNone
  | VBool (b : bool)
  | VInt (z : Z)
  | VFloat (f : pyfloat)
  | VStr (s : string)
  | VList (l : list pyval)
  | VDict (d : list (string * pyval)).

(** Hashable objects used as dictionary keys in the module: strings, the
    [latlng] tuple, and a builtin function object (named by its name). *)
Inductive pykey :=
  | KStr (s : string)
  | KTuple (lat lng : pyfloat)
  | KBuiltin (name : string).

#[export] Instance pykey_eq_dec : EqDecision pykey.
Proof. solve_decision. Defined.

Definition pykey_encode (k : pykey) : string + (pyfloat * pyfloat) + string :=
  match k with
  | KStr s => inl (inl s)
  | KTuple a b => inl (inr (a, b))
  | KBuiltin n => inr n
  end.

Definition pykey_decode (x : string + (pyfloat * pyfloat) + string) : pykey :=
  match x with
  | inl (inl s) => KStr s
  | inl (inr (a, b)) => KTuple a b
  | inr n => KBuiltin n
  end.

#[export] Instance pykey_countable : Countable pykey.
Proof.
  apply (inj_countable' pykey_encode pykey_decode).
  intros []; reflexivity.
Defined.

End Values.

(** The builtins of Python that the module uses on floats and for
    formatting; they are not code of the repository either. *)
Class PyBuiltins `{PyFloat} := {
  (** [float(n)] for an int; [None] is OverflowError *)
  float_of_int : Z -> option pyfloat;
  (** [float(s)] for a string; [None] is ValueError *)
  float_of_str : string -> option pyfloat;
  (** the float equal to the int literal [1] *)
  float_one : pyfloat;
  float_add : pyfloat -> pyfloat -> pyfloat;
  float_sub : pyfloat -> pyfloat -> pyfloat;
  float_lt : pyfloat -> pyfloat -> bool;
  (** ['{:.5f}'.format(x)] *)
  format_5f : pyfloat -> string;
  (** [u"{}".format(v)] for a value [v] that is not a string (a string
      formats as itself) *)
  format_other : pyval -> string;
}.

(** ** Strings *)

Definition ascii_lower (c : ascii) : ascii :=
  let n := nat_of_ascii c in
  if (Nat.leb 65 n && Nat.leb n 90)%bool then ascii_of_nat (n + 32) else c.

(** [s.lower()] on a byte string *)
Fixpoint lower (s : string) : string :=
  match s with
  | EmptyString => EmptyString
  | String c s' => String (ascii_lower c) (lower s')
  end.

(** [needle in hay] for two strings *)
Fixpoint str_in (needle hay : string) : bool :=
  if String.prefix needle hay then true
  else match hay with
       | EmptyString => false
       | String _ hay' => str_in needle hay'
       end.

(** [s.split(sep)] for a one-character separator *)
Fixpoint split (sep : ascii) (s : string) : list string :=
  match s with
  | EmptyString => [EmptyString]
  | String c s' =>
      if Ascii.eqb c sep then EmptyString :: split sep s'
      else match split sep s' with
           | [] => [String c EmptyString]
           | x :: xs => String c x :: xs
           end
  end.

(** ** Exceptions *)

(** The classes that can arise in the module, all below [Exception].
    (Signals that derive from BaseException only, such as KeyboardInterrupt,
    are asynchronous and outside this sequential model.) *)
Inductive exc_class :=
  | Exception | StandardError | Warning | UserWarning
  | ValueError | TypeError | AttributeError | OverflowError
  | LookupError | IndexError | KeyError
  | IOError | RequestException | HTTPError | ConnectionError
  | Timeout | ConnectTimeout | ReadTimeout.

#[export] Instance exc_class_eq_dec : EqDecision exc_class.
Proof. solve_decision. Defined.

(** Direct base classes (Python 2.7 builtins, requests.exceptions). *)
Definition bases (c : exc_class) : list exc_class :=
  match c with
  | Exception => []
  | StandardError | Warning => [Exception]
  | UserWarning => [Warning]
  | ValueError | TypeError | AttributeError | OverflowError
  | LookupError | IOError => [StandardError]
  | IndexError | KeyError => [LookupError]
  | RequestException => [IOError]
  | HTTPError | ConnectionError | Timeout => [RequestException]
  | ConnectTimeout => [ConnectionError; Timeout]
  | ReadTimeout => [Timeout]
  end.

Fixpoint issubclass_fuel (fuel : nat) (c d : exc_class) : bool :=
  if decide (c = d) then true
  else match fuel with
       | O => false
       | S n => existsb (fun b => issubclass_fuel n b d) (bases c)
       end.

(** [issubclass(c, d)]; the hierarchy has depth 5. *)
Definition issubclass (c d : exc_class) : bool := issubclass_fuel 6 c d.

Definition exn := exc_class.

(** ** State and exception monad *)

Inductive result (A : Type) :=
  | Return (a : A)
  | Raise (e : exn).
Arguments Return {A} a.
Arguments Raise {A} e.

#[export] Instance result_ret : MRet result := fun A a => Return a.
#[export] Instance result_bind : MBind result := fun A B f r =>
  match r with
  | Return a => f a
  | Raise e => Raise e
  end.

(** A computation on a state [S] that returns or raises; what it did to the
    state before raising stays done. *)
Definition Mon (S A : Type) : Type := S -> S * result A.

#[export] Instance Mon_ret {S} : MRet (Mon S) := fun A a s => (s, Return a).
#[export] Instance Mon_bind {S} : MBind (Mon S) := fun A B f m s =>
  match m s with
  | (s', Return a) => f a s'
  | (s', Raise e) => (s', Raise e)
  end.

Definition raise {S A} (e : exn) : Mon S A := fun s => (s, Raise e).

(** An operation on values that touches no state. *)
Definition pure {S A} (r : result A) : Mon S A := fun s => (s, r).

(** ** The client object and the world *)

Section Client.
Context `{PyFloat} `{!PyBuiltins} `{UnknownConsts}.

(** The address details ([dts]) that [reverse_geocode] returns: a dict with
    this fixed set of keys. *)
Record dts := mkDts {
  street_num : pyval;
  street : pyval;
  address : pyval;
  address_eu : pyval;
  postal : pyval;
  neighborhood : pyval;
  sublocality : pyval;
  city : pyval;
  county : pyval;
  state : pyval;
  country : pyval;
}.

(** [dts[field] = v] *)
Definition set_street_num (d : dts) (v : pyval) : dts :=
  mkDts v (street d) (address d) (address_eu d) (postal d) (neighborhood d)
        (sublocality d) (city d) (county d) (state d) (country d).
Definition set_street (d : dts) (v : pyval) : dts :=
  mkDts (street_num d) v (address d) (address_eu d) (postal d) (neighborhood d)
        (sublocality d) (city d) (county d) (state d) (country d).
Definition set_address (d : dts) (v : pyval) : dts :=
  mkDts (street_num d) (street d) v (address_eu d) (postal d) (neighborhood d)
        (sublocality d) (city d) (county d) (state d) (country d).
Definition set_address_eu (d : dts) (v : pyval) : dts :=
  mkDts (street_num d) (street d) (address d) v (postal d) (neighborhood d)
        (sublocality d) (city d) (county d) (state d) (country d).
Definition set_postal (d : dts) (v : pyval) : dts :=
  mkDts (street_num d) (street d) (address d) (address_eu d) v (neighborhood d)
        (sublocality d) (city d) (county d) (state d) (country d).
Definition set_neighborhood (d : dts) (v : pyval) : dts :=
  mkDts (street_num d) (street d) (address d) (address_eu d) (postal d) v
        (sublocality d) (city d) (county d) (state d) (country d).
Definition set_sublocality (d : dts) (v : pyval) : dts :=
  mkDts (street_num d) (street d) (address d) (address_eu d) (postal d)
        (neighborhood d) v (city d) (county d) (state d) (country d).
Definition set_city (d : dts) (v : pyval) : dts :=
  mkDts (street_num d) (street d) (address d) (address_eu d) (postal d)
        (neighborhood d) (sublocality d) v (county d) (state d) (country d).
Definition set_county (d : dts) (v : pyval) : dts :=
  mkDts (street_num d) (street d) (address d) (address_eu d) (postal d)
        (neighborhood d) (sublocality d) (city d) v (state d) (country d).
Definition set_state (d : dts) (v : pyval) : dts :=
  mkDts (street_num d) (street d) (address d) (address_eu d) (postal d)
        (neighborhood d) (sublocality d) (city d) (county d) v (country d).
Definition set_country (d : dts) (v : pyval) : dts :=
  mkDts (street_num d) (street d) (address d) (address_eu d) (postal d)
        (neighborhood d) (sublocality d) (city d) (county d) (state d) v.

Record GMaps := mkGMaps {
  _key : string;
  (** [collections.deque(maxlen=_queries_per_second)] of [time.time()] stamps *)
  _window : list pyfloat;
  _geocode_hist : gmap string (option (pyfloat * pyfloat));
  _reverse_geocode_hist : gmap pykey dts;
}.

Definition _queries_per_second : nat := 50.

(** [GMaps(api_key)] *)
Definition new_GMaps (api_key : string) : GMaps :=
  {| _key := api_key; _window := [];
     _geocode_hist := ∅; _reverse_geocode_hist := ∅ |}.

(** [self._session.get(url, params=params, auth=..., timeout=3)] *)
Record request := mkRequest {
  req_url : string;
  req_params : list (pykey * pyval);
  req_auth : option (string * string);
  req_timeout : Z;
}.

(** How the session answers a [get]. *)
Inductive http_reply :=
  | GetRaises (e : exn)
      (** [get] itself raises (timeout, connection failure, ...) *)
  | Response (status_code : Z) (json : option pyval)
      (** a response; [json = None]: the body is not JSON and
          [request.json()] raises ValueError *).

(** [log.debug] and [log.error] records; [op] is "Geocode" or
    "Reverse Geocode". *)
Inductive log_record :=
  | DebugSending (service : string)
  | DebugResponseBody (body : pyval)
  | DebugCompleted (service : string) (status_code : Z)
  | ErrorHTTPError (op : string) (e : exn)
  | ErrorConnection (op : string) (e : exn)
  | ErrorQuota (op : string)
  | ErrorUnexpected (op : string) (e : exn)
  | ErrorStackTrace (e : exn).

Inductive event :=
  | EvSleep (seconds : pyfloat)
  | EvGet (r : request)
  | EvLog (l : log_record).

Record World := mkWorld {
  (** what [time.time()] returns *)
  now : pyfloat;
  (** what happened so far, oldest first *)
  trace : list event;
}.

Record St := mkSt { self : GMaps; world : World }.

(** ** Method bodies *)

(** Statements of a method body run on [St]; the body of a [try] block also
    carries the local variable [L] that the method returns after the block. *)
Definition lift {L A} (m : Mon St A) : Mon (L * St) A :=
  fun ls => let (s', r) := m ls.2 in ((ls.1, s'), r).
Definition get_local {L} : Mon (L * St) L := fun ls => (ls, Return ls.1).
Definition set_local {L} (l : L) : Mon (L * St) unit :=
  fun ls => ((l, ls.2), Return tt).

(** [try: body  except ...: handler] followed by [return local].  The
    handler sees every exception the body raises. *)
Definition try_except {L} (l0 : L) (body : Mon (L * St) unit)
    (handler : exn -> Mon St unit) : Mon St L :=
  fun s => match body (l0, s) with
           | ((l, s'), Return _) => (s', Return l)
           | ((l, s'), Raise e) =>
               match handler e s' with
               | (s'', Return _) => (s'', Return l)
               | (s'', Raise e') => (s'', Raise e')
               end
           end.

Definition get_self : Mon St GMaps := fun s => (s, Return (self s)).
Definition set_self (g : GMaps) : Mon St unit :=
  fun s => ({| self := g; world := world s |}, Return tt).
Definition emit (ev : event) : Mon St unit :=
  fun s => ({| self := self s;
               world := {| now := now (world s);
                           trace := (trace (world s) ++ [ev])%list |} |}, Return tt).

Definition log_debug (l : log_record) : Mon St unit := emit (EvLog l).
Definition log_error (l : log_record) : Mon St unit := emit (EvLog l).

(** [time.time()] *)
Definition time_time : Mon St pyfloat := fun s => (s, Return (now (world s))).

(** [time.sleep(d)]: the clock moves on by [d] *)
Definition time_sleep (d : pyfloat) : Mon St unit :=
  fun s => ({| self := self s;
               world := {| now := float_add (now (world s)) d;
                           trace := (trace (world s) ++ [EvSleep d])%list |} |}, Return tt).

(** ** Python operations on values *)

(** [l[i]] on a list; IndexError out of range *)
Definition py_index {A} (l : list A) (i : nat) : result A :=
  match l !! i with
  | Some x => Return x
  | None => Raise IndexError
  end.

(** [v == s] for a string [s] *)
Definition py_eq_str (v : pyval) (s : string) : bool :=
  match v with
  | VStr s' => bool_decide (s' = s)
  | _ => false
  end.

(** the value under key [k] of a parsed JSON object *)
Fixpoint dict_get (d : list (string * pyval)) (k : string) : option pyval :=
  match d with
  | [] => None
  | (k', v) :: d' => if decide (k' = k) then Some v else dict_get d' k
  end.

(** [k in c] for a string [k]: key of a dict, element of a list,
    substring of a string; TypeError on anything else *)
Definition py_contains (k : string) (c : pyval) : result bool :=
  match c with
  | VDict d => Return (bool_decide (is_Some (dict_get d k)))
  | VList l => Return (existsb (fun v => py_eq_str v k) l)
  | VStr s => Return (str_in k s)
  | _ => Raise TypeError
  end.

(** [c[k]] for a string [k] *)
Definition py_getitem (c : pyval) (k : string) : result pyval :=
  match c with
  | VDict d => match dict_get d k with
               | Some v => Return v
               | None => Raise KeyError
               end
  | _ => Raise TypeError
  end.

(** [c.get(k, default)]: only a dict has the method *)
Definition py_get (c : pyval) (k : string) (default : pyval) : result pyval :=
  match c with
  | VDict d => Return (from_option id default (dict_get d k))
  | _ => Raise AttributeError
  end.

(** [float(v)] *)
Definition py_float (v : pyval) : result pyfloat :=
  match v with
  | VFloat f => Return f
  | VInt z => match float_of_int z with
              | Some f => Return f
              | None => Raise OverflowError
              end
  | VBool b => match float_of_int (if b then 1 else 0) with
               | Some f => Return f
               | None => Raise OverflowError
               end
  | VStr s => match float_of_str s with
              | Some f => Return f
              | None => Raise ValueError
              end
  | VNone | VList _ | VDict _ => Raise TypeError
  end.

(** [deque.append(x)] with [maxlen]: append on the right, then drop from the
    left while over capacity *)
Definition deque_append (maxlen : nat) (d : list pyfloat) (x : pyfloat) : list pyfloat :=
  let d' := (d ++ [x])%list in
  if Nat.ltb maxlen (length d') then tail d' else d'.

(** ** The request dispatcher *)

(** [self._session.get(...)]: the request goes out, then the reply decides *)
Definition session_get (net : http_reply) (r : request) : Mon St (Z * option pyval) :=
  emit (EvGet r);;
  match net with
  | GetRaises e => raise e
  | Response status_code json => mret (status_code, json)
  end.

(** [request.raise_for_status()] *)
Definition raise_for_status (status_code : Z) : result unit :=
  if ((400 <=? status_code) && (status_code <? 600))%bool
  then Raise HTTPError else Return tt.

(** [request.ok]: whether [raise_for_status] would not raise *)
Definition ok (status_code : Z) : bool :=
  negb ((400 <=? status_code) && (status_code <? 600)).

(** [request.json()] *)
Definition request_json (json : option pyval) : result pyval :=
  match json with
  | Some v => Return v
  | None => Raise ValueError
  end.

(** truth value of [userpassword], which is [False] ([None] here) or a string *)
Definition truthy (userpassword : option string) : bool :=
  match userpassword with
  | Some s => negb (bool_decide (s = ""))
  | None => false
  end.

Definition with_window (g : GMaps) (w : list pyfloat) : GMaps :=
  {| _key := _key g; _window := w;
     _geocode_hist := _geocode_hist g;
     _reverse_geocode_hist := _reverse_geocode_hist g |}.

(** [# Rate Limit - All APIs use the same quota] *)
Definition rate_limit : Mon St unit :=
  g ← get_self;
  if decide (length (_window g) = _queries_per_second) then
    t ← time_time;
    w0 ← pure (py_index (_window g) 0);
    let elapsed_time := float_sub t w0 in
    if float_lt elapsed_time float_one
    then time_sleep (float_sub float_one elapsed_time)
    else mret tt
  else mret tt.

(** [# Create the correct url]: the pair [(userpassword, url)] *)
Definition make_url (key service : string) : result (option string * string) :=
  let parts := split "@" key in
  if str_in "@" key then
    up ← py_index parts 0;
    base ← py_index parts 1;
    Return (Some up, base ++ "/" ++ service)
  else
    base ← py_index parts 0;
    Return (None, base ++ "/" ++ service).

(** the [auth=] argument of [get]: [None] when [userpassword] is false *)
Definition make_auth (userpassword : option string) : result (option (string * string)) :=
  if truthy userpassword then
    let up := default "" userpassword in
    user ← py_index (split ":" up) 0;
    password ← py_index (split ":" up) 1;
    Return (Some (user, password))
  else Return None.

(** from [if type(body) is list] to the end of [_make_request] *)
Definition unwrap_body (body : pyval) : result pyval :=
  body ← (match body with
          | VList l => py_index l 0
          | _ => Return body
          end);
  has_error ← py_contains "error" body;
  if negb has_error then Return body
  else
    err ← py_getitem body "error";
    if py_eq_str err "Unable to geocode" then Return (VDict [])
    else Raise ValueError.

Definition _make_request (net : http_reply) (service : string)
    (params : list (pykey * pyval)) : Mon St pyval :=
  rate_limit;;
  g ← get_self;
  '(userpassword, url) ← pure (make_url (_key g) service);
  log_debug (DebugSending service);;
  t ← time_time;
  set_self (with_window g (deque_append _queries_per_second (_window g) t));;
  auth ← pure (make_auth userpassword);
  '(status_code, json) ←
    session_get net {| req_url := url; req_params := params;
                       req_auth := auth; req_timeout := 3 |};
  (if negb (ok status_code) then
     b ← pure (request_json json);
     log_debug (DebugResponseBody b);;
     pure (raise_for_status status_code)
   else mret tt);;
  log_debug (DebugCompleted service status_code);;
  body ← pure (request_json json);
  pure (unwrap_body body).

(** ** geocode *)

Definition with_geocode_hist (g : GMaps)
    (h : gmap string (option (pyfloat * pyfloat))) : GMaps :=
  {| _key := _key g; _window := _window g;
     _geocode_hist := h;
     _reverse_geocode_hist := _reverse_geocode_hist g |}.

Definition with_reverse_geocode_hist (g : GMaps) (h : gmap pykey dts) : GMaps :=
  {| _key := _key g; _window := _window g;
     _geocode_hist := _geocode_hist g;
     _reverse_geocode_hist := h |}.

(** The four [except] clauses, identical in both operations up to the name
    [op] in the log lines.  In Python 2.7 every exception has [.message], so
    the clauses only log.  An exception that no clause matches goes on to
    the caller. *)
Definition except_clauses (op : string) (e : exn) : Mon St unit :=
  if issubclass e HTTPError then log_error (ErrorHTTPError op e)
  else if issubclass e Timeout then log_error (ErrorConnection op e)
  else if issubclass e UserWarning then log_error (ErrorQuota op)
  else if issubclass e Exception then
    log_error (ErrorUnexpected op e);;
    log_error (ErrorStackTrace e)
  else raise e.

(** The [params] dict literal of [geocode].  Its third key is written
    without quotes in the source: it is the builtin function [format]. *)
Definition geocode_params (address language : string) : list (pykey * pyval) :=
  [(KStr "q", VStr address);
   (KStr "accept-language", VStr language);
   (KBuiltin "format", VStr "json")].

(** The body of the [try] in [geocode]; the local is [latlng]. *)
Definition geocode_try (net : http_reply) (address language : string)
    : Mon (option (pyfloat * pyfloat) * St) unit :=
  let params := geocode_params address language in
  response ← lift (_make_request net "search" params);
  has_lat ← pure (py_contains "lat" response);
  has_lng ← (if has_lat : bool then pure (py_contains "lng" response) else mret false);
  (if (has_lat && has_lng)%bool then
     lat ← pure (py_getitem response "lat" ≫= py_float);
     lng ← pure (py_getitem response "lng" ≫= py_float);
     set_local (Some (lat, lng))
   else mret tt);;
  latlng ← get_local;
  g ← lift get_self;
  lift (set_self (with_geocode_hist g (<[address := latlng]> (_geocode_hist g)))).

Definition geocode (net : http_reply) (address : string) (language : string)
    : Mon St (option (pyfloat * pyfloat)) :=
  let address := lower address in
  g ← get_self;
  match _geocode_hist g !! address with
  | Some memo => mret memo
  | None =>
      try_except None (geocode_try net address language)
                 (except_clauses "Geocode")
  end.

(** ** reverse_geocode *)

Definition _reverse_geocode_defaults : dts :=
  {| street_num := VStr Unknown_SMALL;
     street := VStr Unknown_REGULAR;
     address := VStr Unknown_REGULAR;
     address_eu := VStr Unknown_REGULAR;
     postal := VStr Unknown_REGULAR;
     neighborhood := VStr Unknown_REGULAR;
     sublocality := VStr Unknown_REGULAR;
     city := VStr Unknown_REGULAR;
     county := VStr Unknown_REGULAR;
     state := VStr Unknown_REGULAR;
     country := VStr Unknown_REGULAR |}.

(** [u"{}".format(v)] *)
Definition py_format (v : pyval) : string :=
  match v with
  | VStr s => s
  | _ => format_other v
  end.

(** [u"{} {}".format(a, b)] *)
Definition format_pair (a b : pyval) : pyval :=
  VStr (py_format a ++ " " ++ py_format b).

(** [details.get(k1, details.get(k2, ... details.get(kn, default)))]:
    Python evaluates the innermost call first. *)
Definition get_chain (details : pyval) (keys : list string) (default : pyval)
    : result pyval :=
  fold_right (fun k inner => v ← inner; py_get details k v) (Return default) keys.

Definition reverse_geocode_params (latlng : pyfloat * pyfloat) (language : string)
    : list (pykey * pyval) :=
  [(KStr "lat", VFloat latlng.1);
   (KStr "lon", VFloat latlng.2);
   (KStr "accept-language", VStr language);
   (KStr "format", VStr "json")].

Definition upd (f : dts -> dts) : Mon (dts * St) unit :=
  d ← get_local; set_local (f d).

(** The assignments under [if 'address' in response:], one per line of the
    source; the local is [dts]. *)
Definition map_address (response : pyval) : Mon (dts * St) unit :=
  details ← pure (py_get response "address" (VList []));
  v ← pure (get_chain details ["house_number"; "house_name"]
                  (VStr Unknown_EMPTY));
  upd (fun d => set_street_num d v);;
  v ← pure (get_chain details ["road"; "street"; "city_block"; "retail"]
                  (VStr Unknown_EMPTY));
  upd (fun d => set_street d v);;
  upd (fun d => set_address d (format_pair (street_num d) (street d)));;
  upd (fun d => set_address_eu d (format_pair (street d) (street_num d)));;
  v ← pure (get_chain details ["postcode"]
                  (VStr Unknown_REGULAR));
  upd (fun d => set_postal d v);;
  v ← pure (get_chain details ["country"; "country_code"]
                  (VStr Unknown_REGULAR));
  upd (fun d => set_country d v);;
  v ← pure (get_chain details ["region"; "state"]
                  (VStr Unknown_REGULAR));
  upd (fun d => set_state d v);;
  v ← pure (get_chain details ["village"; "town"; "city"; "municipality"]
                  (VStr Unknown_REGULAR));
  upd (fun d => set_city d v);;
  v ← pure (get_chain details ["county"; "state_district"]
                  (VStr Unknown_REGULAR));
  upd (fun d => set_county d v);;
  v ← pure (get_chain details ["neighbourhood"; "allotments"; "quarter"]
                  (VStr Unknown_REGULAR));
  upd (fun d => set_neighborhood d v);;
  v ← pure (get_chain details ["city_district"; "district"; "borough"; "suburb"; "subdivision"]
                  (VStr Unknown_REGULAR));
  upd (fun d => set_sublocality d v).

(** The body of the [try] in [reverse_geocode].  The last statement stores
    under [latlng], the tuple, not under the string [latlng_hist]. *)
Definition reverse_geocode_try (net : http_reply) (latlng : pyfloat * pyfloat)
    (language : string) : Mon (dts * St) unit :=
  let params := reverse_geocode_params latlng language in
  response ← lift (_make_request net "reverse" params);
  has_address ← pure (py_contains "address" response);
  (if has_address : bool then map_address response else mret tt);;
  d ← get_local;
  g ← lift get_self;
  lift (set_self (with_reverse_geocode_hist g
          (<[KTuple latlng.1 latlng.2 := d]> (_reverse_geocode_hist g)))).

(** ['{:.5f},{:.5f}'.format(latlng[0], latlng[1])] *)
Definition latlng_hist (latlng : pyfloat * pyfloat) : string :=
  format_5f latlng.1 ++ "," ++ format_5f latlng.2.

Definition reverse_geocode (net : http_reply) (latlng : pyfloat * pyfloat)
    (language : string) : Mon St dts :=
  g ← get_self;
  match _reverse_geocode_hist g !! KStr (latlng_hist latlng) with
  | Some memo => mret memo
  | None =>
      try_except _reverse_geocode_defaults
                 (reverse_geocode_try net latlng language)
                 (except_clauses "Reverse Geocode")
  end.

End Client.

(** ** Views of a run, and the specification's own words *)

Section Views.
Context `{PyFloat} `{!PyBuiltins} `{UnknownConsts}.

(** the world after some more events *)
Definition add_events (evs : list event) (s : St) : St :=
  {| self := self s;
     world := {| now := now (world s);
                 trace := (trace (world s) ++ evs)%list |} |}.

(** the sleeps in a trace, in order *)
Definition sleeps (tr : list event) : list pyfloat :=
  omap (fun ev => match ev with EvSleep d => Some d | _ => None end) tr.

(** the HTTP requests in a trace, in order *)
Definition gets (tr : list event) : list request :=
  omap (fun ev => match ev with EvGet r => Some r | _ => None end) tr.

Definition is_sending (ev : event) : bool :=
  match ev with
  | EvLog (DebugSending _) => true
  | _ => false
  end.

(** How many times the dispatcher ran: [_make_request] writes its
    "request sending" record exactly once per call. *)
Definition dispatches (tr : list event) : nat :=
  length (List.filter is_sending tr).

(** the records the [except] clauses write for [e] *)
Definition handler_log (op : string) (e : exn) : list event :=
  if issubclass e HTTPError then [EvLog (ErrorHTTPError op e)]
  else if issubclass e Timeout then [EvLog (ErrorConnection op e)]
  else if issubclass e UserWarning then [EvLog (ErrorQuota op)]
  else [EvLog (ErrorUnexpected op e); EvLog (ErrorStackTrace e)].

(** The blocking rule of the specification: with [N = 50] stamps in the
    window and less than a second elapsed since the oldest, wait for
    [1 - elapsed]; otherwise do not wait. *)
Definition spec_wait (w : list pyfloat) (t : pyfloat) : option pyfloat :=
  match w with
  | oldest :: _ =>
      if decide (length w = 50%nat) then
        let elapsed := float_sub t oldest in
        if float_lt elapsed float_one
        then Some (float_sub float_one elapsed) else None
      else None
  | [] => None
  end.

(** The recording rule of the specification: the new stamp goes in at the
    end, and the oldest goes out when the window is at capacity. *)
Definition spec_record (w : list pyfloat) (t : pyfloat) : list pyfloat :=
  if decide (length w = 50%nat) then (tail w ++ [t])%list else (w ++ [t])%list.

(** the state once the rate limit is passed *)
Definition after_wait (s : St) : St :=
  match spec_wait (_window (self s)) (now (world s)) with
  | Some d =>
      {| self := self s;
         world := {| now := float_add (now (world s)) d;
                     trace := (trace (world s) ++ [EvSleep d])%list |} |}
  | None => s
  end.

(** the state once the stamp of the request is in the window *)
Definition stamp (s : St) : St :=
  {| self := with_window (self s)
               (deque_append _queries_per_second (_window (self s)) (now (world s)));
     world := world s |}.

(** what [_make_request] logs and returns once the request is out *)
Definition reply_outcome (net : http_reply) (service : string)
    : list event * result pyval :=
  match net with
  | GetRaises e => ([], Raise e)
  | Response status_code json =>
      if ok status_code then
        ([EvLog (DebugCompleted service status_code)],
         request_json json ≫= unwrap_body)
      else match json with
           | Some b => ([EvLog (DebugResponseBody b)], Raise HTTPError)
           | None => ([], Raise ValueError)
           end
  end.

(** The [auth=] argument that the key yields; it raises IndexError when the
    part before the "@" has no ":". *)
Definition credentials (key : string) : result (option (string * string)) :=
  if str_in "@" key then
    userpassword ← py_index (split "@" key) 0;
    make_auth (Some userpassword)
  else Return None.

(** The fallback chain of the specification: the candidate keys in order,
    first match wins, else the default. *)
Fixpoint first_match (d : list (string * pyval)) (keys : list string)
    (default : pyval) : pyval :=
  match keys with
  | [] => default
  | k :: keys' =>
      match dict_get d k with
      | Some v => v
      | None => first_match d keys' default
      end
  end.

(** the fields [map_address] builds from the [address] object [a] *)
Definition mapped (a : list (string * pyval)) : dts :=
  let num := first_match a ["house_number"; "house_name"] (VStr Unknown_EMPTY) in
  let str := first_match a ["road"; "street"; "city_block"; "retail"]
               (VStr Unknown_EMPTY) in
  {| street_num := num;
     street := str;
     address := format_pair num str;
     address_eu := format_pair str num;
     postal := first_match a ["postcode"] (VStr Unknown_REGULAR);
     neighborhood := first_match a ["neighbourhood"; "allotments"; "quarter"]
                       (VStr Unknown_REGULAR);
     sublocality := first_match a ["city_district"; "district"; "borough";
                                   "suburb"; "subdivision"] (VStr Unknown_REGULAR);
     city := first_match a ["village"; "town"; "city"; "municipality"]
               (VStr Unknown_REGULAR);
     county := first_match a ["county"; "state_district"] (VStr Unknown_REGULAR);
     state := first_match a ["region"; "state"] (VStr Unknown_REGULAR);
     country := first_match a ["country"; "country_code"] (VStr Unknown_REGULAR) |}.

(** what the [try] of [geocode] leaves in [latlng] for a [response] *)
Definition extract_latlng (latlng0 : option (pyfloat * pyfloat)) (response : pyval)
    : result (option (pyfloat * pyfloat)) :=
  has_lat ← py_contains "lat" response;
  has_lng ← (if has_lat : bool then py_contains "lng" response else Return false);
  if (has_lat && has_lng)%bool then
    lat ← py_getitem response "lat" ≫= py_float;
    lng ← py_getitem response "lng" ≫= py_float;
    Return (Some (lat, lng))
  else Return latlng0.

(** what the [try] of [reverse_geocode] leaves in [dts] for a [response] *)
Definition extract_dts (dts0 : dts) (response : pyval) : result dts :=
  has_address ← py_contains "address" response;
  if has_address : bool then
    details ← py_get response "address" (VList []);
    match details with
    | VDict a => Return (mapped a)
    | _ => Raise AttributeError
    end
  else Return dts0.

(** [self._geocode_hist[address] = latlng] *)
Definition store_geocode (address : string) (latlng : option (pyfloat * pyfloat))
    (s : St) : St :=
  {| self := with_geocode_hist (self s)
               (<[address := latlng]> (_geocode_hist (self s)));
     world := world s |}.

(** [self._reverse_geocode_hist[latlng] = dts] *)
Definition store_reverse (latlng : pyfloat * pyfloat) (d : dts) (s : St) : St :=
  {| self := with_reverse_geocode_hist (self s)
               (<[KTuple latlng.1 latlng.2 := d]> (_reverse_geocode_hist (self s)));
     world := world s |}.

End Views.

(** ** The code that uses the client *)

Section Callers.
Context `{PyFloat} `{!PyBuiltins} `{UnknownConsts}.

(** One call of a public method, with the reply the server would give to
    the request of that call. *)
Inductive call :=
  | CallGeocode (net : http_reply) (address language : string)
  | CallReverse (net : http_reply) (latlng : pyfloat * pyfloat) (language : string).

(** the state after one call; the caller takes any result *)
Definition do_call (s : St) (c : call) : St :=
  match c with
  | CallGeocode net address language => (geocode net address language s).1
  | CallReverse net latlng language => (reverse_geocode net latlng language s).1
  end.

(** the state after a sequence of calls *)
Definition do_calls (s : St) (cs : list call) : St := fold_left do_call cs s.

(** [GMaps(api_key)] in the world [w] *)
Definition boot (api_key : string) (w : World) : St :=
  {| self := new_GMaps api_key; world := w |}.

(** the log line an exception leaves, by the [except] clause that takes it *)
Definition clause_log (op : string) (e : exn) : list log_record :=
  match e with
  | HTTPError => [ErrorHTTPError op e]
  | Timeout | ConnectTimeout | ReadTimeout => [ErrorConnection op e]
  | UserWarning => [ErrorQuota op]
  | _ => [ErrorUnexpected op e; ErrorStackTrace e]
  end.

End Callers.

(** ** An instance to run the model on

    Decimal fixed-point numbers with five fractional digits stand in for
    Python floats: [z] denotes [z / 10^5].  The sentinels are those of
    PokeAlarm's [Unknown] class. *)
Module Example.

Definition digits (n : N) : string :=
  DecimalString.NilZero.string_of_uint (N.to_uint n).

(** ['{:.5f}'.format] of [z / 10^5] *)
Definition fixed5_format (z : Z) : string :=
  let a := Z.abs_N z in
  let sign := if (z <? 0)%Z then "-" else "" in
  let frac := match digits (100000 + a mod 100000)%N with
              | String _ frac => frac
              | EmptyString => EmptyString
              end in
  sign ++ digits (a / 100000)%N ++ "." ++ frac.

(** [float(s)] for plain decimals [[-]ddd[.ddd]]; digits after the fifth
    decimal place are dropped *)
Definition fixed5_of_str (s : string) : option Z :=
  let '(neg, s) := match s with
                   | String "-" s' => (true, s')
                   | _ => (false, s)
                   end in
  match split "." s with
  | [i] =>
      n ← DecimalString.NilZero.uint_of_string i;
      Some ((if neg : bool then -1 else 1) * Z.of_N (N.of_uint n) * 100000)
  | [i; f] =>
      n ← DecimalString.NilZero.uint_of_string i;
      m ← DecimalString.NilZero.uint_of_string
            (String.substring 0 5 (f ++ "00000")%string);
      Some ((if neg : bool then -1 else 1) *
            (Z.of_N (N.of_uint n) * 100000 + Z.of_N (N.of_uint m)))
  | _ => None
  end.

#[export] Instance fixed5 : PyFloat := {| pyfloat := Z |}.

#[export] Instance fixed5_builtins : PyBuiltins := {|
  float_of_int := fun n => Some (n * 100000);
  float_of_str := fixed5_of_str;
  float_one := 100000;
  float_add := Z.add;
  float_sub := Z.sub;
  float_lt := Z.ltb;
  format_5f := fixed5_format;
  format_other := fun v =>
    match v with
    | VNone => "None"
    | VBool true => "True"
    | VBool false => "False"
    | VFloat f => fixed5_format f
    | _ => "<object>"
    end
|}.

#[export] Instance unknown : UnknownConsts := {|
  Unknown_SMALL := "???";
  Unknown_REGULAR := "unknown";
  Unknown_EMPTY := "";
|}.

(** a fresh client at clock reading [t] *)
Definition start (api_key : string) (t : Z) : St :=
  {| self := new_GMaps api_key; world := {| now := t; trace := [] |} |}.

Definition s0 : St := start "https://nominatim.example" 0.

(** the coordinate (12.34567, 76.54321) *)
Definition coord : pyfloat * pyfloat := (1234567, 7654321).

(** 200 with [{"address": {"road": "Main St", "house_number": "42"}}] *)
Definition main_st_reply : http_reply :=
  Response 200 (Some (VDict
    [("address", VDict [("road", VStr "Main St"); ("house_number", VStr "42")])])).

(** 200 with [{"display_name": "Indian Ocean"}]: no ["address"] *)
Definition no_address_reply : http_reply :=
  Response 200 (Some (VDict [("display_name", VStr "Indian Ocean")])).

(** 200 with [{"address": "Main St 42"}]: the address is not an object *)
Definition flat_address_reply : http_reply :=
  Response 200 (Some (VDict [("address", VStr "Main St 42")])).

(** 200 with [[{"lat": "52.51704", "lon": "13.38886"}]], as Nominatim
    answers a search *)
Definition berlin_reply : http_reply :=
  Response 200 (Some (VList
    [VDict [("lat", VStr "52.51704"); ("lon", VStr "13.38886")]])).

(** 200 with [{"lat": "north", "lng": "13.38886"}] *)
Definition bad_lat_reply : http_reply :=
  Response 200 (Some (VDict [("lat", VStr "north"); ("lng", VStr "13.38886")])).

(** 200 with [{"error": "Unable to geocode"}] *)
Definition unable_reply : http_reply :=
  Response 200 (Some (VDict [("error", VStr "Unable to geocode")])).

(** 200 with [{"error": "quota exceeded"}] *)
Definition quota_reply : http_reply :=
  Response 200 (Some (VDict [("error", VStr "quota exceeded")])).

(** a client whose window holds 50 stamps, the oldest 0.4 s before now *)
Definition busy : St :=
  {| self := {| _key := "https://nominatim.example";
                _window := replicate 50 1000000;
                _geocode_hist := ∅;
                _reverse_geocode_hist := ∅ |};
     world := {| now := 1040000; trace := [] |} |}.

(** a client whose key carries credentials *)
Definition with_login : St := start "user:secret@https://nominatim.example" 0.

(** a client whose key has an "@" but no ":" before it *)
Definition with_token : St := start "token@https://nominatim.example" 0.

(** 200 with [{"lat": "52.51704", "lng": "13.38886"}] *)
Definition resolved_reply : http_reply :=
  Response 200 (Some (VDict [("lat", VStr "52.51704"); ("lng", VStr "13.38886")])).

(** 503 with [{"message": "down"}] *)
Definition unavailable_reply : http_reply :=
  Response 503 (Some (VDict [("message", VStr "down")])).

(** 502 with a body that is not JSON *)
Definition gateway_reply : http_reply := Response 502 None.

(** 200 with [{"address": {"road": null, "street": "Side St"}}] *)
Definition null_road_reply : http_reply :=
  Response 200 (Some (VDict
    [("address", VDict [("road", VNone); ("street", VStr "Side St")])])).

(** the coordinate (52.51704, 13.38886) *)
Definition berlin_latlng : pyfloat * pyfloat := (5251704, 1338886).

(** three calls in a row *)
Definition three_calls : list call :=
  [CallGeocode resolved_reply "Berlin" "en";
   CallReverse main_st_reply coord "en";
   CallGeocode unable_reply "Atlantis" "en"].

End Example.

(** * Properties *)

(** Unfold the monad and the primitive effects. *)
Ltac mon_unfold :=
  unfold mbind, mret, Mon_bind, Mon_ret, result_bind, result_ret,
    pure, raise, lift, get_local, set_local, get_self, set_self,
    log_debug, log_error, emit, time_time, time_sleep in *.

Section Properties.
Context `{PyFloat} `{!PyBuiltins} `{UnknownConsts}.

(** A run is the pair of its final state and its result. *)
Lemma run_eq {A B} (p : A * B) a b : p.1 = a → p.2 = b → p = (a, b).
Proof. destruct p. cbn. by intros -> ->. Qed.

(** ** Strings *)

Lemma split_cons sep s : ∃ x xs, split sep s = x :: xs.
Proof.
  induction s as [|c s IH]; simpl; [eauto|].
  destruct (Ascii.eqb c sep); [eauto|].
  destruct IH as (x & xs & ->); eauto.
Qed.

Lemma str_in_at_cons c s :
  str_in "@" (String c s) = if Ascii.eqb c "@" then true else str_in "@" s.
Proof.
  cbn [str_in String.prefix].
  destruct (ascii_dec "@" c) as [<-|Hne].
  - by destruct s.
  - destruct (Ascii.eqb_spec c "@"); [congruence|reflexivity].
Qed.

Lemma split_at_two s :
  str_in "@" s = true → ∃ a b rest, split "@" s = a :: b :: rest.
Proof.
  induction s as [|c s IH]; [discriminate|].
  rewrite str_in_at_cons. cbn [split].
  destruct (Ascii.eqb c "@").
  - intros _. destruct (split_cons "@" s) as (x & xs & ->). eauto.
  - intros Hin. destruct (IH Hin) as (a & b & rest & ->). eauto.
Qed.

(** [# Create the correct url] never fails. *)
Lemma make_url_returns key service :
  ∃ up url, make_url key service = Return (up, url).
Proof.
  unfold make_url. destruct (str_in "@" key) eqn:Hin.
  - destruct (split_at_two _ Hin) as (a & b & rest & ->). cbn. eauto.
  - destruct (split_cons "@" key) as (a & rest & ->). cbn. eauto.
Qed.

(** ** Exceptions *)

Lemma all_derive_from_Exception e : issubclass e Exception = true.
Proof. destruct e; reflexivity. Qed.

(** ** Events *)

Lemma self_add_events evs s : self (add_events evs s) = self s.
Proof. reflexivity. Qed.

Lemma now_add_events evs s : now (world (add_events evs s)) = now (world s).
Proof. reflexivity. Qed.

Lemma trace_add_events evs s :
  trace (world (add_events evs s)) = (trace (world s) ++ evs)%list.
Proof. reflexivity. Qed.

Lemma add_events_app evs1 evs2 s :
  add_events evs2 (add_events evs1 s) = add_events (evs1 ++ evs2)%list s.
Proof. unfold add_events; cbn. by rewrite <- app_assoc. Qed.

Lemma add_events_nil s : add_events [] s = s.
Proof. destruct s as [g [t tr]]. unfold add_events; cbn. by rewrite app_nil_r. Qed.

(** Every exception of the module meets one of the four clauses, and the
    clause only logs. *)
Lemma except_clauses_run op e s :
  except_clauses op e s = (add_events (handler_log op e) s, Return tt).
Proof.
  unfold except_clauses, handler_log.
  destruct (issubclass e HTTPError); [reflexivity|].
  destruct (issubclass e Timeout); [reflexivity|].
  destruct (issubclass e UserWarning); [reflexivity|].
  rewrite all_derive_from_Exception.
  unfold add_events. mon_unfold. cbn. by rewrite <- app_assoc.
Qed.

Lemma handler_log_nonempty op e : handler_log op e ≠ [].
Proof.
  unfold handler_log.
  repeat match goal with |- context [if ?b then _ else _] => destruct b end;
    discriminate.
Qed.

(** ** The rate limiter *)

Lemma rate_limit_run s : rate_limit s = (after_wait s, Return tt).
Proof.
  unfold rate_limit, after_wait, spec_wait, _queries_per_second.
  mon_unfold. cbn.
  destruct (decide (length (_window (self s)) = 50%nat)) as [Hlen|Hlen];
    destruct (_window (self s)) as [|w0 w]; try reflexivity; try discriminate.
  cbn. by destruct (float_lt _ _).
Qed.

Lemma self_after_wait s : self (after_wait s) = self s.
Proof. unfold after_wait. by destruct (spec_wait _ _). Qed.

(** ** The dispatcher, step by step *)

Lemma make_request_unfold net service params s :
  ∃ up url,
    make_url (_key (self s)) service = Return (up, url) ∧
    _make_request net service params s =
      let s2 := stamp (add_events [EvLog (DebugSending service)] (after_wait s)) in
      match make_auth up with
      | Raise e => (s2, Raise e)
      | Return auth =>
          let r := {| req_url := url; req_params := params;
                      req_auth := auth; req_timeout := 3 |} in
          (add_events (EvGet r :: (reply_outcome net service).1) s2,
           (reply_outcome net service).2)
      end.
Proof.
  destruct (make_url_returns (_key (self s)) service) as (up & url & Hurl).
  exists up, url. split; [done|].
  unfold _make_request.
  unfold mbind at 1, Mon_bind at 1. rewrite rate_limit_run.
  unfold mbind at 1, Mon_bind at 1, get_self at 1. cbn [self].
  rewrite self_after_wait.
  unfold mbind at 1, Mon_bind at 1, pure at 1. rewrite Hurl.
  mon_unfold. unfold session_get, stamp, add_events. mon_unfold. cbn.
  rewrite !self_after_wait.
  destruct (make_auth up) as [auth|e]; [|reflexivity].
  destruct net as [e|st json]; cbn.
  - reflexivity.
  - unfold raise_for_status, ok.
    destruct ((400 <=? st) && (st <? 600))%bool; cbn.
    + destruct json as [b|]; cbn; by rewrite <- ?app_assoc.
    + destruct json as [b|]; cbn; by rewrite <- ?app_assoc.
Qed.

Lemma sleeps_app tr1 tr2 : sleeps (tr1 ++ tr2) = (sleeps tr1 ++ sleeps tr2)%list.
Proof. apply omap_app. Qed.

Lemma gets_app tr1 tr2 : gets (tr1 ++ tr2) = (gets tr1 ++ gets tr2)%list.
Proof. apply omap_app. Qed.

Lemma dispatches_app tr1 tr2 :
  dispatches (tr1 ++ tr2) = (dispatches tr1 + dispatches tr2)%nat.
Proof. unfold dispatches. by rewrite List.filter_app, length_app. Qed.

Lemma reply_outcome_quiet net service :
  sleeps (reply_outcome net service).1 = [] ∧
  dispatches (reply_outcome net service).1 = 0%nat.
Proof.
  destruct net as [e|st json]; cbn; [done|].
  destruct (ok st); [done|]. by destruct json.
Qed.

(** What one run of the dispatcher does to the state, whatever it returns:
    the wait of the rate limit, the "sending" record, the stamp in the
    window, then only requests and log records. *)
Lemma make_request_effect net service params s s' r :
  _make_request net service params s = (s', r) →
  ∃ evs,
    s' = add_events evs
           (stamp (add_events [EvLog (DebugSending service)] (after_wait s))) ∧
    sleeps evs = [] ∧ dispatches evs = 0%nat.
Proof.
  destruct (make_request_unfold net service params s) as (up & url & _ & ->).
  cbn zeta. destruct (make_auth up) as [auth|e]; intros [= <- <-].
  - eexists; split; [reflexivity|].
    destruct (reply_outcome_quiet net service) as [Hs Hd].
    split; [exact Hs|]. cbn [dispatches List.filter is_sending].
    exact Hd.
  - exists []. by rewrite add_events_nil.
Qed.

Lemma make_request_self net service params s s' r :
  _make_request net service params s = (s', r) →
  _key (self s') = _key (self s) ∧
  _geocode_hist (self s') = _geocode_hist (self s) ∧
  _reverse_geocode_hist (self s') = _reverse_geocode_hist (self s) ∧
  _window (self s') =
    deque_append _queries_per_second (_window (self s)) (now (world (after_wait s))).
Proof.
  intros (evs & -> & _)%make_request_effect. cbn.
  by rewrite !self_after_wait.
Qed.

Lemma make_request_trace net service params s s' r :
  _make_request net service params s = (s', r) →
  sleeps (trace (world s')) =
    (sleeps (trace (world s)) ++
     option_list (spec_wait (_window (self s)) (now (world s))))%list ∧
  dispatches (trace (world s')) = S (dispatches (trace (world s))).
Proof.
  intros (evs & -> & Hs & Hd)%make_request_effect.
  unfold add_events, stamp, after_wait.
  destruct (spec_wait _ _); cbn [world trace now self option_list];
    rewrite !sleeps_app, !dispatches_app, Hs, Hd; cbn;
    rewrite ?app_nil_r; (split; [done|lia]).
Qed.

(** ** The fallback chains *)

(** On a dict the nested [get] calls pick the first key that is present. *)
Lemma get_chain_dict a keys default :
  get_chain (VDict a) keys default = Return (first_match a keys default).
Proof.
  induction keys as [|k keys IH]; [reflexivity|].
  cbn [get_chain fold_right first_match]. fold (get_chain (VDict a) keys default).
  rewrite IH. cbn. by destruct (dict_get a k).
Qed.

(** On anything else the first call that runs raises AttributeError. *)
Lemma get_chain_other details k keys default :
  (∀ a, details ≠ VDict a) →
  get_chain details (k :: keys) default = Raise AttributeError.
Proof.
  intros Hd. revert k. induction keys as [|k' keys IH]; intros k.
  - cbn. destruct details; try reflexivity. by destruct (Hd d).
  - cbn [get_chain fold_right] in *. rewrite IH. reflexivity.
Qed.

(** ** The two [try] blocks *)

Lemma geocode_try_run net address language latlng0 s :
  geocode_try net address language (latlng0, s) =
    let (s1, r) := _make_request net "search" (geocode_params address language) s in
    match r ≫= extract_latlng latlng0 with
    | Return latlng => ((latlng, store_geocode address latlng s1), Return tt)
    | Raise e => ((latlng0, s1), Raise e)
    end.
Proof.
  unfold geocode_try, extract_latlng, store_geocode.
  unfold mbind at 1, Mon_bind at 1, lift at 1. cbn [fst snd].
  destruct (_make_request _ _ _ s) as [s1 [response|e]]; [|reflexivity].
  mon_unfold. cbn.
  destruct (py_contains "lat" response) as [[]|]; cbn; try reflexivity.
  destruct (py_contains "lng" response) as [[]|]; cbn; try reflexivity.
  destruct (py_getitem response "lat") as [v|]; cbn; [|reflexivity].
  destruct (py_float v); cbn; [|reflexivity].
  destruct (py_getitem response "lng") as [v'|]; cbn; [|reflexivity].
  by destruct (py_float v').
Qed.

Lemma map_address_run response dts0 s :
  map_address response (dts0, s) =
    match py_get response "address" (VList []) with
    | Return (VDict a) => ((mapped a, s), Return tt)
    | Return _ => ((dts0, s), Raise AttributeError)
    | Raise e => ((dts0, s), Raise e)
    end.
Proof.
  unfold map_address.
  unfold mbind at 1, Mon_bind at 1, pure at 1.
  destruct (py_get response "address" (VList [])) as [details|e]; [|reflexivity].
  destruct details as [| | | | |l|a];
    try (unfold mbind at 1, Mon_bind at 1, pure at 1;
         rewrite get_chain_other by done; reflexivity).
  rewrite !get_chain_dict. reflexivity.
Qed.

Lemma reverse_geocode_try_run net latlng language dts0 s :
  reverse_geocode_try net latlng language (dts0, s) =
    let (s1, r) := _make_request net "reverse"
                     (reverse_geocode_params latlng language) s in
    match r ≫= extract_dts dts0 with
    | Return d => ((d, store_reverse latlng d s1), Return tt)
    | Raise e => ((dts0, s1), Raise e)
    end.
Proof.
  unfold reverse_geocode_try, store_reverse.
  unfold mbind at 1, Mon_bind at 1, lift at 1. cbn [fst snd].
  destruct (_make_request _ _ _ s) as [s1 [response|e]]; [|reflexivity].
  change (Return response ≫= extract_dts dts0) with (extract_dts dts0 response).
  unfold extract_dts.
  unfold mbind at 1, Mon_bind at 1, pure at 1.
  destruct (py_contains "address" response) as [[]|]; try reflexivity.
  unfold mbind at 1, Mon_bind at 1. rewrite map_address_run.
  destruct (py_get response "address" (VList [])) as [[]|]; reflexivity.
Qed.

(** ** The two operations, case by case *)

Lemma geocode_run net address language s :
  geocode net address language s =
    match _geocode_hist (self s) !! lower address with
    | Some memo => (s, Return memo)
    | None =>
        let (s1, r) := _make_request net "search"
                         (geocode_params (lower address) language) s in
        match r ≫= extract_latlng None with
        | Return latlng => (store_geocode (lower address) latlng s1, Return latlng)
        | Raise e => (add_events (handler_log "Geocode" e) s1, Return None)
        end
    end.
Proof.
  unfold geocode. unfold mbind at 1, Mon_bind at 1, get_self at 1.
  destruct (_geocode_hist (self s) !! lower address); [reflexivity|].
  unfold try_except. rewrite geocode_try_run.
  destruct (_make_request _ _ _ s) as [s1 r].
  destruct (r ≫= extract_latlng None); [reflexivity|].
  by rewrite except_clauses_run.
Qed.

Lemma reverse_geocode_run net latlng language s :
  reverse_geocode net latlng language s =
    match _reverse_geocode_hist (self s) !! KStr (latlng_hist latlng) with
    | Some memo => (s, Return memo)
    | None =>
        let (s1, r) := _make_request net "reverse"
                         (reverse_geocode_params latlng language) s in
        match r ≫= extract_dts _reverse_geocode_defaults with
        | Return d => (store_reverse latlng d s1, Return d)
        | Raise e =>
            (add_events (handler_log "Reverse Geocode" e) s1,
             Return _reverse_geocode_defaults)
        end
    end.
Proof.
  unfold reverse_geocode. unfold mbind at 1, Mon_bind at 1, get_self at 1.
  destruct (_reverse_geocode_hist (self s) !! _); [reflexivity|].
  unfold try_except. rewrite reverse_geocode_try_run.
  destruct (_make_request _ _ _ s) as [s1 r].
  destruct (r ≫= extract_dts _); [reflexivity|].
  by rewrite except_clauses_run.
Qed.

(** ** Requests that go out *)

Lemma make_auth_credentials key service up url :
  make_url key service = Return (up, url) → make_auth up = credentials key.
Proof.
  unfold make_url, credentials. destruct (str_in "@" key) eqn:Hin.
  - destruct (split_at_two _ Hin) as (a & b & rest & ->). cbn.
    by intros [= <- <-].
  - destruct (split_cons "@" key) as (a & rest & ->). cbn.
    by intros [= <- <-].
Qed.

(** With usable credentials the request is sent, and the reply decides. *)
Lemma make_request_sent net service params s auth :
  credentials (_key (self s)) = Return auth →
  ∃ url,
    (∃ up, make_url (_key (self s)) service = Return (up, url)) ∧
    _make_request net service params s =
      (add_events
         (EvGet {| req_url := url; req_params := params;
                   req_auth := auth; req_timeout := 3 |}
            :: (reply_outcome net service).1)
         (stamp (add_events [EvLog (DebugSending service)] (after_wait s))),
       (reply_outcome net service).2).
Proof.
  intros Hc.
  destruct (make_request_unfold net service params s) as (up & url & Hurl & ->).
  rewrite (make_auth_credentials _ _ _ _ Hurl), Hc. exists url. eauto.
Qed.

Lemma gets_reply_outcome net service : gets (reply_outcome net service).1 = [].
Proof.
  destruct net as [e|st json]; cbn; [done|].
  destruct (ok st); [done|]. by destruct json.
Qed.

Lemma gets_handler_log op e : gets (handler_log op e) = [].
Proof.
  unfold handler_log.
  repeat match goal with |- context [if ?b then _ else _] => destruct b end;
    reflexivity.
Qed.

Lemma handler_log_only_logs op e :
  Forall (fun ev => ∃ l, ev = EvLog l) (handler_log op e).
Proof.
  unfold handler_log.
  repeat match goal with |- context [if ?b then _ else _] => destruct b end;
    repeat constructor; eauto.
Qed.

Lemma gets_after_wait s : gets (trace (world (after_wait s))) = gets (trace (world s)).
Proof.
  unfold after_wait. destruct (spec_wait _ _); [|done].
  cbn [world trace]. rewrite gets_app. cbn. by rewrite app_nil_r.
Qed.

(** ** The deque *)

Lemma deque_append_spec_record w t :
  (length w ≤ 50)%nat → deque_append _queries_per_second w t = spec_record w t.
Proof.
  intros Hle. unfold deque_append, spec_record, _queries_per_second.
  rewrite length_app. cbn [length].
  destruct (decide (length w = 50%nat)) as [Heq|Hne].
  - destruct (Nat.ltb_spec 50 (length w + 1)); [|lia].
    destruct w; [discriminate|reflexivity].
  - destruct (Nat.ltb_spec 50 (length w + 1)); [lia|reflexivity].
Qed.

Lemma spec_record_length w t :
  (length w ≤ 50)%nat → (length (spec_record w t) ≤ 50)%nat.
Proof.
  intros Hle. unfold spec_record.
  destruct (decide (length w = 50%nat)) as [Heq|Hne].
  - destruct w; [discriminate|]. cbn in *. rewrite length_app. cbn. lia.
  - rewrite length_app. cbn. lia.
Qed.

Lemma now_after_wait s :
  now (world (after_wait s)) =
    from_option (float_add (now (world s))) (now (world s))
      (spec_wait (_window (self s)) (now (world s))).
Proof. unfold after_wait. by destruct (spec_wait _ _). Qed.

(** ** geocode: memoization *)

(** Once a call has left a memoized value for the key of [A], that value
    is what the call returned, and a call for any address with the same
    key returns it again and leaves the client and the world exactly as
    they are: no dispatch, no request, no log record. *)
Lemma geocode_answers_from_memo net1 net2 A A' language language' s s1 v :
  lower A' = lower A →
  geocode net1 A language s = (s1, Return v) →
  is_Some (_geocode_hist (self s1) !! lower A) →
  _geocode_hist (self s1) !! lower A = Some v ∧
  geocode net2 A' language' s1 = (s1, Return v).
Proof.
  intros Hkey Hfirst Hmemo.
  assert (_geocode_hist (self s1) !! lower A = Some v) as Hv.
  { rewrite geocode_run in Hfirst.
    destruct (_geocode_hist (self s) !! lower A) as [memo|] eqn:Hs.
    - by injection Hfirst as <- <-.
    - destruct (_make_request net1 "search" _ s) as [s' r] eqn:Hreq.
      apply make_request_self in Hreq as (_ & Hhist & _).
      destruct (r ≫= extract_latlng None) as [latlng|e];
        injection Hfirst as <- <-.
      + cbn. apply lookup_insert_eq.
      + cbn in Hmemo. rewrite Hhist, Hs in Hmemo. by destruct Hmemo. }
  split; [exact Hv|].
  rewrite geocode_run, Hkey, Hv. reflexivity.
Qed.

(** C7. The reply [{"error": "Unable to geocode"}]: the dispatcher returns
    the empty dict, [geocode] returns [None] and stores it under the
    lower-cased address, and a repeat call returns [None] without touching
    the client or the world. *)
Theorem unable_to_geocode_is_memoized net2 A language language' status_code auth s :
  ok status_code = true →
  credentials (_key (self s)) = Return auth →
  _geocode_hist (self s) !! lower A = None →
  let net := Response status_code (Some (VDict [("error", VStr "Unable to geocode")])) in
  ∃ s' s1,
    _make_request net "search" (geocode_params (lower A) language) s
      = (s', Return (VDict [])) ∧
    geocode net A language s = (s1, Return None) ∧
    _geocode_hist (self s1) = <[lower A := None]> (_geocode_hist (self s)) ∧
    geocode net2 A language' s1 = (s1, Return None).
Proof.
  intros Hok Hc Hmiss net.
  destruct (make_request_sent net "search" (geocode_params (lower A) language) s auth Hc)
    as (url & _ & Hreq).
  assert ((reply_outcome net "search").2 = Return (VDict [])) as Hout.
  { cbn. by rewrite Hok. }
  rewrite Hout in Hreq.
  match type of Hreq with _ = (?x, _) => set (s' := x) in * end.
  exists s', (store_geocode (lower A) None s'). split; [exact Hreq|].
  split; [|split].
  - rewrite geocode_run, Hmiss, Hreq. reflexivity.
  - cbn. by rewrite !self_after_wait.
  - rewrite geocode_run. cbn [store_geocode self with_geocode_hist _geocode_hist].
    by rewrite lookup_insert_eq.
Qed.

(** C10. Only ["lng"] counts as the longitude: for a response with numeric
    ["lat"] and ["lon"] but no ["lng"], [geocode] returns [None] and stores
    [None] under the lower-cased address. *)
Theorem geocode_ignores_lon net A language s s' d lat_v lat lon_v lon :
  _geocode_hist (self s) !! lower A = None →
  _make_request net "search" (geocode_params (lower A) language) s
    = (s', Return (VDict d)) →
  dict_get d "lat" = Some lat_v → py_float lat_v = Return lat →
  dict_get d "lon" = Some lon_v → py_float lon_v = Return lon →
  dict_get d "lng" = None →
  ∃ s1,
    geocode net A language s = (s1, Return None) ∧
    _geocode_hist (self s1) = <[lower A := None]> (_geocode_hist (self s)).
Proof.
  intros Hmiss Hreq Hlat _ _ _ Hlng.
  exists (store_geocode (lower A) None s'). split.
  - rewrite geocode_run, Hmiss, Hreq. cbn. by rewrite Hlat, Hlng.
  - apply make_request_self in Hreq as (_ & Hhist & _). cbn. by rewrite Hhist.
Qed.

(** ** The rate limiter *)

(** C5. One run of the dispatcher on a window of at most [N = 50] stamps.
    It blocks exactly as the rule says: one sleep of [1 - elapsed] when the
    window is full and less than a second has passed since its oldest
    stamp, no sleep otherwise; the sleep comes before the request is
    announced and sent, and nothing sleeps after it.  The stamp recorded is
    the clock after that wait; it is appended, and the oldest stamp is
    evicted when the window was full.  The window stays within [N]. *)
Theorem rate_limiter_rule net service params s s' r :
  (length (_window (self s)) ≤ 50)%nat →
  _make_request net service params s = (s', r) →
  let w := _window (self s) in
  let t := now (world s) in
  (∃ evs,
     trace (world s') =
       (trace (world s) ++ (EvSleep <$> option_list (spec_wait w t)) ++
        EvLog (DebugSending service) :: evs)%list ∧
     sleeps evs = []) ∧
  _window (self s') =
    spec_record w (from_option (float_add t) t (spec_wait w t)) ∧
  (length (_window (self s')) ≤ 50)%nat.
Proof.
  intros Hlen Hreq w t.
  pose proof (make_request_self _ _ _ _ _ _ Hreq) as (_ & _ & _ & Hwin).
  rewrite now_after_wait, deque_append_spec_record in Hwin by done.
  split; [|split; [exact Hwin|]].
  - apply make_request_effect in Hreq as (evs & -> & Hquiet & _).
    exists evs. split; [|exact Hquiet].
    unfold add_events, stamp, after_wait; subst w t.
    destruct (spec_wait _ _); cbn; by rewrite <- ?app_assoc.
  - rewrite Hwin. by apply spec_record_length.
Qed.

(** ** Error containment *)

Lemma dispatches_handler_log op e : dispatches (handler_log op e) = 0%nat.
Proof.
  unfold handler_log.
  repeat match goal with |- context [if ?b then _ else _] => destruct b end;
    reflexivity.
Qed.

(** C6. Neither operation ever raises.  When the [try] block of an
    operation raises (in the dispatcher or while the response is mapped),
    the local result is still the default ([None], or the all-default
    [dts]), the operation returns it, and all that happens after the raise
    is that log records are written. *)
Theorem errors_are_contained net s :
  (∀ A language, ∃ s' v, geocode net A language s = (s', Return v)) ∧
  (∀ latlng language, ∃ s' d, reverse_geocode net latlng language s = (s', Return d)) ∧
  (∀ A language l s1 e,
     _geocode_hist (self s) !! lower A = None →
     geocode_try net (lower A) language (None, s) = ((l, s1), Raise e) →
     ∃ logs, logs ≠ [] ∧ Forall (fun ev => ∃ rec, ev = EvLog rec) logs ∧
       geocode net A language s = (add_events logs s1, Return None)) ∧
  (∀ latlng language l s1 e,
     _reverse_geocode_hist (self s) !! KStr (latlng_hist latlng) = None →
     reverse_geocode_try net latlng language (_reverse_geocode_defaults, s)
       = ((l, s1), Raise e) →
     ∃ logs, logs ≠ [] ∧ Forall (fun ev => ∃ rec, ev = EvLog rec) logs ∧
       reverse_geocode net latlng language s
         = (add_events logs s1, Return _reverse_geocode_defaults)).
Proof.
  repeat split.
  - intros A language. rewrite geocode_run.
    destruct (_ !! _); [eauto|].
    destruct (_make_request _ _ _ s) as [s1 r].
    destruct (r ≫= extract_latlng None); eauto.
  - intros latlng language. rewrite reverse_geocode_run.
    destruct (_ !! _); [eauto|].
    destruct (_make_request _ _ _ s) as [s1 r].
    destruct (r ≫= extract_dts _); eauto.
  - intros A language l s1 e Hmiss Htry.
    exists (handler_log "Geocode" e).
    split; [apply handler_log_nonempty|]. split; [apply handler_log_only_logs|].
    rewrite geocode_run, Hmiss. rewrite geocode_try_run in Htry.
    destruct (_make_request _ _ _ s) as [s' r].
    destruct (r ≫= extract_latlng None); [discriminate|].
    by injection Htry as <- <- <-.
  - intros latlng language l s1 e Hmiss Htry.
    exists (handler_log "Reverse Geocode" e).
    split; [apply handler_log_nonempty|]. split; [apply handler_log_only_logs|].
    rewrite reverse_geocode_run, Hmiss. rewrite reverse_geocode_try_run in Htry.
    destruct (_make_request _ _ _ s) as [s' r].
    destruct (r ≫= extract_dts _); [discriminate|].
    by injection Htry as <- <- <-.
Qed.

(** C8. A reply whose [error] field is not the recognized sentinel: the
    dispatcher raises ValueError; the operation logs the error (the clause
    for unexpected errors and its stack trace), returns its default, and
    its memoization dict is as it was. *)
Theorem provider_error_is_not_cached status_code body err auth s :
  ok status_code = true →
  dict_get body "error" = Some err →
  py_eq_str err "Unable to geocode" = false →
  credentials (_key (self s)) = Return auth →
  let net := Response status_code (Some (VDict body)) in
  let logged op :=
    [EvLog (ErrorUnexpected op ValueError); EvLog (ErrorStackTrace ValueError)] in
  (∀ service params, ∃ s',
     _make_request net service params s = (s', Raise ValueError)) ∧
  (∀ A language,
     _geocode_hist (self s) !! lower A = None →
     ∃ s',
       geocode net A language s = (add_events (logged "Geocode") s', Return None) ∧
       _geocode_hist (self s') = _geocode_hist (self s)) ∧
  (∀ latlng language,
     _reverse_geocode_hist (self s) !! KStr (latlng_hist latlng) = None →
     ∃ s',
       reverse_geocode net latlng language s
         = (add_events (logged "Reverse Geocode") s', Return _reverse_geocode_defaults) ∧
       _reverse_geocode_hist (self s') = _reverse_geocode_hist (self s)).
Proof.
  intros Hok Herr Hne Hc net logged.
  assert (∀ service params, ∃ s',
    _make_request net service params s = (s', Raise ValueError)) as Hreq.
  { intros service params.
    destruct (make_request_sent net service params s auth Hc) as (url & _ & ->).
    eexists. f_equal. cbn. rewrite Hok. cbn. unfold unwrap_body. cbn.
    rewrite Herr. cbn. by rewrite Hne. }
  split; [exact Hreq|]. split.
  - intros A language Hmiss.
    destruct (Hreq "search" (geocode_params (lower A) language)) as (s' & Hs').
    exists s'. split.
    + by rewrite geocode_run, Hmiss, Hs'.
    + by apply make_request_self in Hs' as (_ & -> & _).
  - intros latlng language Hmiss.
    destruct (Hreq "reverse" (reverse_geocode_params latlng language)) as (s' & Hs').
    exists s'. split.
    + by rewrite reverse_geocode_run, Hmiss, Hs'.
    + by apply make_request_self in Hs' as (_ & _ & -> & _).
Qed.

(** ** geocode: the second call *)

(** C4, as the code has it.  A second [geocode] call for an address that
    lower-cases to the same key as the first one, after a first call that
    returned [v].
    - If the first call left a memoized value (it hit the cache, or its
      [try] block ran to the store), that value is [v], and the second call
      returns it and leaves client and world as they are: no dispatch.
      [v] may be [None].
    - If it left none, then [v] is [None] and the second call runs the
      dispatcher again.
    - On a miss the first call leaves a value exactly when its [try] block
      returns, that is when neither the dispatcher nor the mapping raises. *)
Theorem geocode_second_call net1 net2 A A' language language' s s1 v :
  lower A' = lower A →
  geocode net1 A language s = (s1, Return v) →
  (is_Some (_geocode_hist (self s1) !! lower A) →
     _geocode_hist (self s1) !! lower A = Some v ∧
     geocode net2 A' language' s1 = (s1, Return v)) ∧
  (_geocode_hist (self s1) !! lower A = None →
     v = None ∧
     dispatches (trace (world (geocode net2 A' language' s1).1))
       = S (dispatches (trace (world s1)))) ∧
  (_geocode_hist (self s) !! lower A = None →
     (is_Some (_geocode_hist (self s1) !! lower A) ↔
      ∃ l s', geocode_try net1 (lower A) language (None, s) = ((l, s'), Return tt))).
Proof.
  intros Hkey Hfirst. split; [|split].
  - intros Hmemo.
    exact (geocode_answers_from_memo net1 net2 A A' language language' s s1 v
             Hkey Hfirst Hmemo).
  - intros Hnone. split.
    + rewrite geocode_run in Hfirst.
      destruct (_geocode_hist (self s) !! lower A) as [memo|] eqn:Hs.
      { injection Hfirst as <- <-. congruence. }
      destruct (_make_request net1 "search" _ s) as [s' r].
      destruct (r ≫= extract_latlng None) as [latlng|e];
        injection Hfirst as <- <-; [|done].
      cbn in Hnone. by rewrite lookup_insert_eq in Hnone.
    + rewrite geocode_run, Hkey, Hnone.
      destruct (_make_request net2 "search" _ s1) as [s2 r] eqn:Hreq.
      apply make_request_trace in Hreq as [_ Hd].
      destruct (r ≫= extract_latlng None); cbn [fst]; [exact Hd|].
      unfold add_events; cbn [world trace].
      rewrite dispatches_app, dispatches_handler_log. lia.
  - intros Hmiss. rewrite geocode_run, Hmiss in Hfirst.
    rewrite geocode_try_run.
    destruct (_make_request net1 "search" _ s) as [s' r] eqn:Hreq.
    apply make_request_self in Hreq as (_ & Hhist & _).
    destruct (r ≫= extract_latlng None) as [latlng|e];
      injection Hfirst as <- <-.
    + split; [eauto|]. intros _. cbn. rewrite lookup_insert_eq. eauto.
    + split.
      * cbn. rewrite Hhist, Hmiss. by intros [? ?].
      * by intros (l & s2 & ?).
Qed.

(** ** geocode: the parameters of the request *)

Lemma gets_sent net service r s :
  gets (trace (world
    (add_events (EvGet r :: (reply_outcome net service).1)
       (stamp (add_events [EvLog (DebugSending service)] (after_wait s))))))
  = (gets (trace (world s)) ++ [r])%list.
Proof.
  unfold add_events, stamp; cbn [world trace].
  rewrite !gets_app, gets_after_wait.
  change (gets (EvGet r :: ?evs)) with (r :: gets evs).
  rewrite gets_reply_outcome. cbn. by rewrite app_nil_r.
Qed.

(** C2. On a cache miss with usable credentials [geocode] sends one request
    to the ["search"] service; its parameters have the keys ["q"] and
    ["accept-language"] and, as third key, the builtin function [format]:
    the string ["format"] is not a key of the mapping. *)
Theorem geocode_sends_builtin_format_key net A language auth s :
  _geocode_hist (self s) !! lower A = None →
  credentials (_key (self s)) = Return auth →
  ∃ url params,
    (∃ up, make_url (_key (self s)) "search" = Return (up, url)) ∧
    gets (trace (world (geocode net A language s).1)) =
      (gets (trace (world s)) ++
       [{| req_url := url; req_params := params;
           req_auth := auth; req_timeout := 3 |}])%list ∧
    params = [(KStr "q", VStr (lower A));
              (KStr "accept-language", VStr language);
              (KBuiltin "format", VStr "json")] ∧
    KStr "format" ∉ params.*1.
Proof.
  intros Hmiss Hc.
  destruct (make_request_sent net "search" (geocode_params (lower A) language) s auth Hc)
    as (url & Hurl & Hreq).
  exists url, (geocode_params (lower A) language).
  split; [exact Hurl|]. split; [|split; [reflexivity|]].
  - rewrite geocode_run, Hmiss, Hreq.
    destruct ((reply_outcome net "search").2 ≫= extract_latlng None);
      cbn [fst].
    + unfold store_geocode at 1. cbn [world]. apply gets_sent.
    + unfold add_events at 1. cbn [world trace].
      by rewrite gets_app, gets_handler_log, app_nil_r, gets_sent.
  - cbn. rewrite !elem_of_cons, elem_of_nil. intros [|[|[|]]]; done.
Qed.

(** ** reverse_geocode: memoization *)

(** C1. The lookup of [reverse_geocode] asks for the string key
    [latlng_hist]; the store writes under the tuple [latlng].  So after a
    call that missed, the string key is still absent, and the next call for
    the same coordinate runs the dispatcher once more. *)
Theorem reverse_geocode_never_hits net1 net2 latlng language s s1 r1 s2 r2 :
  _reverse_geocode_hist (self s) !! KStr (latlng_hist latlng) = None →
  reverse_geocode net1 latlng language s = (s1, r1) →
  reverse_geocode net2 latlng language s1 = (s2, r2) →
  _reverse_geocode_hist (self s1) !! KStr (latlng_hist latlng) = None ∧
  dispatches (trace (world s2)) = S (dispatches (trace (world s1))).
Proof.
  intros Hmiss Hfirst Hsecond.
  assert (_reverse_geocode_hist (self s1) !! KStr (latlng_hist latlng) = None) as Hmiss1.
  { rewrite reverse_geocode_run, Hmiss in Hfirst.
    destruct (_make_request net1 "reverse" _ s) as [s' r] eqn:Hreq.
    apply make_request_self in Hreq as (_ & _ & Hhist & _).
    destruct (r ≫= extract_dts _) as [d|e]; injection Hfirst as <- _; cbn.
    - rewrite lookup_insert_ne by discriminate. by rewrite Hhist.
    - by rewrite Hhist. }
  split; [exact Hmiss1|].
  rewrite reverse_geocode_run, Hmiss1 in Hsecond.
  destruct (_make_request net2 "reverse" _ s1) as [s' r] eqn:Hreq.
  apply make_request_trace in Hreq as [_ Hd].
  destruct (r ≫= extract_dts _) as [d|e]; injection Hsecond as <- _.
  - exact Hd.
  - unfold add_events; cbn [world trace].
    rewrite dispatches_app, dispatches_handler_log. lia.
Qed.

(** C3, as the code has it.  For a response without ["address"] the
    operation returns the all-default [dts], and the store still runs: an
    entry with that all-default [dts] is written into the reverse-geocode
    memoization dict. *)
Theorem reverse_geocode_without_address net latlng language s s' response :
  _reverse_geocode_hist (self s) !! KStr (latlng_hist latlng) = None →
  _make_request net "reverse" (reverse_geocode_params latlng language) s
    = (s', Return response) →
  py_contains "address" response = Return false →
  ∃ s1,
    reverse_geocode net latlng language s = (s1, Return _reverse_geocode_defaults) ∧
    ∃ k, _reverse_geocode_hist (self s1)
           = <[k := _reverse_geocode_defaults]> (_reverse_geocode_hist (self s)).
Proof.
  intros Hmiss Hreq Hno.
  exists (store_reverse latlng _reverse_geocode_defaults s'). split.
  - rewrite reverse_geocode_run, Hmiss, Hreq. cbn. unfold extract_dts.
    by rewrite Hno.
  - apply make_request_self in Hreq as (_ & _ & Hhist & _).
    eexists. cbn. by rewrite Hhist.
Qed.

(** ** reverse_geocode: the field mapping *)

(** C9.  For a response whose ["address"] is the object [a], the street is
    the first of [road], [street], [city_block], [retail] that [a] has,
    else the "empty" sentinel.  For
    [a = {road: "Main St", house_number: "42"}] the result has
    [address = "42 Main St"] and [address_eu = "Main St 42"], built from
    the street number ["42"] and the street ["Main St"] that [a] gives, and
    every field that [a] does not specify (the seven others) is at its
    sentinel, the "regular" one. *)
Theorem reverse_geocode_field_mapping net latlng language s s' resp a :
  _reverse_geocode_hist (self s) !! KStr (latlng_hist latlng) = None →
  _make_request net "reverse" (reverse_geocode_params latlng language) s
    = (s', Return (VDict resp)) →
  dict_get resp "address" = Some (VDict a) →
  ∃ s1 d,
    reverse_geocode net latlng language s = (s1, Return d) ∧
    street d = first_match a ["road"; "street"; "city_block"; "retail"]
                 (VStr Unknown_EMPTY) ∧
    (a = [("road", VStr "Main St"); ("house_number", VStr "42")] →
     d = {| street_num := VStr "42";
            street := VStr "Main St";
            address := VStr "42 Main St";
            address_eu := VStr "Main St 42";
            postal := VStr Unknown_REGULAR;
            neighborhood := VStr Unknown_REGULAR;
            sublocality := VStr Unknown_REGULAR;
            city := VStr Unknown_REGULAR;
            county := VStr Unknown_REGULAR;
            state := VStr Unknown_REGULAR;
            country := VStr Unknown_REGULAR |}).
Proof.
  intros Hmiss Hreq Haddr.
  exists (store_reverse latlng (mapped a) s'), (mapped a). split; [|split].
  - rewrite reverse_geocode_run, Hmiss, Hreq. cbn. unfold extract_dts. cbn.
    by rewrite Haddr.
  - reflexivity.
  - intros ->. reflexivity.
Qed.

End Properties.

(** * Further properties *)

Section Further.
Context `{PyFloat} `{!PyBuiltins} `{UnknownConsts}.

(** ** Strings *)

Lemma ascii_lower_idem c : ascii_lower (ascii_lower c) = ascii_lower c.
Proof. destruct c as [[] [] [] [] [] [] [] []]; reflexivity. Qed.

Lemma lower_idem s : lower (lower s) = lower s.
Proof.
  induction s as [|c s IH]; [reflexivity|].
  cbn. by rewrite ascii_lower_idem, IH.
Qed.

Lemma str_in_char_cons c a s :
  str_in (String c "") (String a s) =
    if Ascii.eqb a c then true else str_in (String c "") s.
Proof.
  cbn [str_in String.prefix].
  destruct (ascii_dec c a) as [<-|Hne].
  - destruct (Ascii.eqb_spec c c); [|done]. by destruct s.
  - destruct (Ascii.eqb_spec a c); [congruence|reflexivity].
Qed.

Lemma split_without c u :
  str_in (String c "") u = false → split c u = [u].
Proof.
  induction u as [|a u IH]; [reflexivity|].
  rewrite str_in_char_cons. cbn [split].
  destruct (Ascii.eqb a c); [discriminate|].
  intros Hu. by rewrite (IH Hu).
Qed.

Lemma split_at c u v :
  str_in (String c "") u = false →
  split c (u ++ String c v) = u :: split c v.
Proof.
  induction u as [|a u IH].
  - intros _. change ("" ++ String c v) with (String c v).
    cbn [split]. by destruct (Ascii.eqb_spec c c).
  - rewrite str_in_char_cons.
    change (String a u ++ String c v) with (String a (u ++ String c v)).
    cbn [split].
    destruct (Ascii.eqb a c); [discriminate|].
    intros Hu. by rewrite (IH Hu).
Qed.

Lemma str_in_at c u v :
  str_in (String c "") (u ++ String c v) = true.
Proof.
  induction u as [|a u IH].
  - change ("" ++ String c v) with (String c v). rewrite str_in_char_cons.
    by destruct (Ascii.eqb_spec c c).
  - change (String a u ++ String c v) with (String a (u ++ String c v)).
    rewrite str_in_char_cons, IH. by destruct (Ascii.eqb a c).
Qed.

(** ** One call *)

Lemma deque_append_length w t :
  (length w ≤ 50)%nat →
  (length (deque_append _queries_per_second w t) ≤ 50)%nat.
Proof.
  intros Hle. rewrite deque_append_spec_record by done.
  by apply spec_record_length.
Qed.

Lemma deque_append_grows w t :
  (length (deque_append _queries_per_second w t) ≤ S (length w))%nat.
Proof.
  unfold deque_append. destruct (Nat.ltb _ _).
  - destruct w; cbn; rewrite ?length_app; cbn; lia.
  - rewrite length_app. cbn. lia.
Qed.

(** What a call can do to the client object. *)
Lemma do_call_self s c :
  let s' := do_call s c in
  _key (self s') = _key (self s) ∧
  (_window (self s') = _window (self s) ∨
   ∃ t, _window (self s') = deque_append _queries_per_second (_window (self s)) t) ∧
  (_geocode_hist (self s') = _geocode_hist (self s) ∨
   ∃ A l, _geocode_hist (self s) !! lower A = None ∧
          _geocode_hist (self s') = <[lower A := l]> (_geocode_hist (self s))) ∧
  (_reverse_geocode_hist (self s') = _reverse_geocode_hist (self s) ∨
   ∃ a b d, _reverse_geocode_hist (self s')
              = <[KTuple a b := d]> (_reverse_geocode_hist (self s))).
Proof.
  destruct c as [net A language|net latlng language]; cbn [do_call].
  - rewrite geocode_run.
    destruct (_geocode_hist (self s) !! lower A) eqn:Hmiss; [cbn; eauto 10|].
    destruct (_make_request _ _ _ s) as [s1 r] eqn:Hreq.
    apply make_request_self in Hreq as (Hk & Hg & Hr & Hw).
    destruct (r ≫= extract_latlng None) as [l|e]; cbn;
      rewrite ?Hk, ?Hg, ?Hr, ?Hw;
      (split; [done|]); (split; [right; eauto|]);
      (split; [|by left]); [right; eauto|by left].
  - rewrite reverse_geocode_run.
    destruct (_reverse_geocode_hist (self s) !! _) eqn:Hmiss; [cbn; eauto 10|].
    destruct (_make_request _ _ _ s) as [s1 r] eqn:Hreq.
    apply make_request_self in Hreq as (Hk & Hg & Hr & Hw).
    destruct (r ≫= extract_dts _) as [d|e]; cbn;
      rewrite ?Hk, ?Hg, ?Hr, ?Hw;
      (split; [done|]); (split; [right; eauto|]);
      (split; [by left|]); [right; eauto|by left].
Qed.

Lemma make_request_gets net service params s s' r :
  _make_request net service params s = (s', r) →
  ∃ rs, gets (trace (world s')) = (gets (trace (world s)) ++ rs)%list ∧
        (length rs ≤ 1)%nat.
Proof.
  destruct (make_request_unfold net service params s) as (up & url & _ & ->).
  cbn zeta. destruct (make_auth up) as [auth|e]; intros [= <- <-].
  - eexists [_]. split; [apply gets_sent|cbn; lia].
  - exists []. unfold stamp, add_events. cbn [world trace].
    rewrite gets_app, gets_after_wait. cbn. split; [done|lia].
Qed.

(** The events of one run of the dispatcher. *)
Lemma make_request_events net service params s s1 r :
  _make_request net service params s = (s1, r) →
  ∃ evs,
    trace (world s1) = (trace (world s) ++ evs)%list ∧
    dispatches evs = 1%nat ∧
    (length (gets evs) ≤ 1)%nat ∧
    sleeps evs = option_list (spec_wait (_window (self s)) (now (world s))).
Proof.
  intros Hreq.
  pose proof (make_request_trace _ _ _ _ _ _ Hreq) as [Hsl Hdis].
  pose proof (make_request_gets _ _ _ _ _ _ Hreq) as (rs & Hgets & Hrs).
  assert (∃ evs, trace (world s1) = (trace (world s) ++ evs)%list) as [evs Htr].
  { apply make_request_effect in Hreq as (evs & -> & _).
    unfold add_events, stamp, after_wait.
    destruct (spec_wait _ _); cbn [world trace];
      rewrite <- ?app_assoc; eauto. }
  exists evs. split; [done|].
  rewrite Htr, sleeps_app in Hsl. rewrite Htr, dispatches_app in Hdis.
  rewrite Htr, gets_app in Hgets.
  apply app_inv_head in Hsl. apply app_inv_head in Hgets.
  split; [lia|]. split; [by rewrite Hgets|done].
Qed.

(** What a call can add to the trace: nothing on a cache hit; otherwise
    the events of one run of the dispatcher, then log records. *)
Lemma do_call_trace s c :
  ∃ evs,
    trace (world (do_call s c)) = (trace (world s) ++ evs)%list ∧
    (dispatches evs ≤ 1)%nat ∧
    (length (gets evs) ≤ dispatches evs)%nat ∧
    sleeps evs = (if decide (dispatches evs = 0%nat) then []
                  else option_list (spec_wait (_window (self s)) (now (world s)))).
Proof.
  assert (∀ net service params s1 r (tail : list event),
    _make_request net service params s = (s1, r) →
    dispatches tail = 0%nat → gets tail = [] → sleeps tail = [] →
    ∃ evs,
      (trace (world s1) ++ tail)%list = (trace (world s) ++ evs)%list ∧
      (dispatches evs ≤ 1)%nat ∧
      (length (gets evs) ≤ dispatches evs)%nat ∧
      sleeps evs = (if decide (dispatches evs = 0%nat) then []
                    else option_list (spec_wait (_window (self s)) (now (world s))))) as Hrun.
  { intros net service params s1 r tail Hreq Hd Hg Hs.
    apply make_request_events in Hreq as (evs & -> & Hdis & Hgets & Hsl).
    exists (evs ++ tail)%list. split; [by rewrite app_assoc|].
    rewrite dispatches_app, gets_app, sleeps_app, Hd, Hg, Hs, Hdis, Hsl.
    rewrite !app_nil_r. cbn. repeat split; lia. }
  assert (∀ op e, sleeps (handler_log op e) = []) as Hquiet.
  { intros op e. unfold handler_log.
    repeat match goal with |- context [if ?b then _ else _] => destruct b end;
      reflexivity. }
  destruct c as [net A language|net latlng language]; cbn [do_call].
  - rewrite geocode_run.
    destruct (_geocode_hist (self s) !! lower A).
    { exists []. cbn. rewrite app_nil_r. repeat split; lia. }
    destruct (_make_request _ _ _ s) as [s1 r] eqn:Hreq.
    destruct (r ≫= extract_latlng None) as [l|e]; cbn [fst].
    + destruct (Hrun _ _ _ _ _ [] Hreq) as (evs & Htr & ?); try done.
      exists evs. rewrite app_nil_r in Htr. by split.
    + destruct (Hrun _ _ _ _ _ (handler_log "Geocode" e) Hreq)
        as (evs & Htr & ?);
        [apply dispatches_handler_log|apply gets_handler_log|apply Hquiet|].
      exists evs. by split.
  - rewrite reverse_geocode_run.
    destruct (_reverse_geocode_hist (self s) !! _).
    { exists []. cbn. rewrite app_nil_r. repeat split; lia. }
    destruct (_make_request _ _ _ s) as [s1 r] eqn:Hreq.
    destruct (r ≫= extract_dts _) as [d|e]; cbn [fst].
    + destruct (Hrun _ _ _ _ _ [] Hreq) as (evs & Htr & ?); try done.
      exists evs. rewrite app_nil_r in Htr. by split.
    + destruct (Hrun _ _ _ _ _ (handler_log "Reverse Geocode" e) Hreq)
        as (evs & Htr & ?);
        [apply dispatches_handler_log|apply gets_handler_log|apply Hquiet|].
      exists evs. by split.
Qed.

(** ** Sequences of calls *)

Lemma do_calls_cons s c cs : do_calls s (c :: cs) = do_calls (do_call s c) cs.
Proof. reflexivity. Qed.

(** A property that every call keeps holds after any sequence of calls. *)
Lemma do_calls_keeps (P : St → Prop) :
  (∀ s c, P s → P (do_call s c)) → ∀ cs s, P s → P (do_calls s cs).
Proof.
  intros Hstep cs. induction cs as [|c cs IH]; intros s Hs; [exact Hs|].
  rewrite do_calls_cons. apply IH, Hstep, Hs.
Qed.

(** X1. However a client is used after [GMaps(api_key)], its window never
    holds more than [_queries_per_second = 50] stamps. *)
Theorem window_within_capacity api_key w cs :
  (length (_window (self (do_calls (boot api_key w) cs))) ≤ 50)%nat.
Proof.
  apply (do_calls_keeps (fun s => (length (_window (self s)) ≤ 50)%nat));
    [|cbn; lia].
  intros s c Hs. destruct (do_call_self s c) as (_ & [->|[t ->]] & _);
    [exact Hs|by apply deque_append_length].
Qed.

(** X2. The keys of the geocode memoization dict are lower-cased strings:
    after any sequence of calls on a new client, every key is its own
    lower-casing. *)
Theorem geocode_keys_are_lower_case api_key w cs k :
  is_Some (_geocode_hist (self (do_calls (boot api_key w) cs)) !! k) →
  lower k = k.
Proof.
  revert k.
  apply (do_calls_keeps
    (fun s => ∀ k, is_Some (_geocode_hist (self s) !! k) → lower k = k)).
  - intros s c Hs k.
    destruct (do_call_self s c) as (_ & _ & [->|(A & l & _ & ->)] & _);
      [apply Hs|].
    destruct (decide (lower A = k)) as [<-|Hne].
    + intros _. apply lower_idem.
    + rewrite lookup_insert_ne by done. apply Hs.
  - intros k. cbn. rewrite lookup_empty. by intros [? ?].
Qed.

Lemma reverse_keys_are_tuples api_key w cs k :
  is_Some (_reverse_geocode_hist (self (do_calls (boot api_key w) cs)) !! k) →
  ∃ a b, k = KTuple a b.
Proof.
  revert k.
  apply (do_calls_keeps
    (fun s => ∀ k, is_Some (_reverse_geocode_hist (self s) !! k) →
                   ∃ a b, k = KTuple a b)).
  - intros s c Hs k.
    destruct (do_call_self s c) as (_ & _ & _ & [->|(a & b & d & ->)]);
      [apply Hs|].
    destruct (decide (KTuple a b = k)) as [<-|Hne]; [eauto|].
    rewrite lookup_insert_ne by done. apply Hs.
  - intros k. cbn. rewrite lookup_empty. by intros [? ?].
Qed.

(** X3. The reverse-geocode memoization never answers: whatever calls a
    new client has served, every [reverse_geocode] call runs the dispatcher
    (the dict only ever has tuple keys, and the lookup asks for a string). *)
Theorem reverse_geocode_always_dispatches api_key w cs net latlng language :
  let s := do_calls (boot api_key w) cs in
  _reverse_geocode_hist (self s) !! KStr (latlng_hist latlng) = None ∧
  dispatches (trace (world (reverse_geocode net latlng language s).1))
    = S (dispatches (trace (world s))).
Proof.
  intros s.
  assert (_reverse_geocode_hist (self s) !! KStr (latlng_hist latlng) = None) as Hmiss.
  { destruct (_ !! _) eqn:Hk; [|done].
    destruct (reverse_keys_are_tuples api_key w cs (KStr (latlng_hist latlng)))
      as (a & b & ?); [fold s; by rewrite Hk|discriminate]. }
  split; [exact Hmiss|]. clearbody s.
  rewrite reverse_geocode_run, Hmiss.
  destruct (_make_request _ _ _ s) as [s1 r] eqn:Hreq.
  apply make_request_trace in Hreq as [_ Hd].
  destruct (r ≫= extract_dts _); cbn [fst]; [exact Hd|].
  unfold add_events; cbn [world trace].
  rewrite dispatches_app, dispatches_handler_log. lia.
Qed.

(** X4. A memoized geocode result is never overwritten or dropped: once
    the dict holds [v] for the key of [A], every later [geocode(A)], after
    any calls in between, returns [v] without touching client or world. *)
Theorem memoized_geocode_is_permanent A v s cs net language :
  _geocode_hist (self s) !! lower A = Some v →
  geocode net A language (do_calls s cs) = (do_calls s cs, Return v).
Proof.
  intros Hv.
  assert (_geocode_hist (self (do_calls s cs)) !! lower A = Some v) as Hlater.
  { revert s Hv.
    apply (do_calls_keeps (fun s => _geocode_hist (self s) !! lower A = Some v)).
    intros s c Hs.
    destruct (do_call_self s c) as (_ & _ & [->|(B & l & Hmiss & ->)] & _);
      [exact Hs|].
    rewrite lookup_insert_ne; [exact Hs|]. intros Heq. congruence. }
  by rewrite geocode_run, Hlater.
Qed.

(** X5. One call sends at most one request.  A call only appends to the
    trace; what it appends holds at most one run of the dispatcher, no
    request without such a run, and no sleep other than the one wait of
    the rate limit. *)
Theorem one_request_per_call s c :
  ∃ evs,
    trace (world (do_call s c)) = (trace (world s) ++ evs)%list ∧
    (dispatches evs ≤ 1)%nat ∧
    (length (gets evs) ≤ dispatches evs)%nat ∧
    (length (sleeps evs) ≤ dispatches evs)%nat.
Proof.
  destruct (do_call_trace s c) as (evs & Htr & Hd & Hg & Hs).
  exists evs. repeat split; try done.
  rewrite Hs. destruct (decide _); [cbn; lia|].
  destruct (spec_wait _ _); cbn; lia.
Qed.

Lemma spec_wait_not_full w t : length w ≠ 50%nat → spec_wait w t = None.
Proof.
  intros Hne. unfold spec_wait. destruct w; [done|].
  by destruct (decide _).
Qed.

(** X6. The first fifty calls on a new client are never delayed: the rate
    limit sleeps only on a full window, and a window that started empty
    is not full before fifty dispatches. *)
Theorem first_fifty_calls_never_sleep api_key w cs :
  (length cs ≤ 50)%nat →
  sleeps (trace (world (do_calls (boot api_key w) cs))) = sleeps (trace w).
Proof.
  assert (∀ cs s n,
    (length (_window (self s)) ≤ n)%nat → (n + length cs ≤ 50)%nat →
    sleeps (trace (world (do_calls s cs))) = sleeps (trace (world s))) as Hgen.
  { clear cs. induction cs as [|c cs IH]; intros s n Hw Hn; [done|].
    rewrite do_calls_cons. cbn [length] in Hn.
    destruct (do_call_trace s c) as (evs & Htr & _ & _ & Hsl).
    rewrite spec_wait_not_full in Hsl by lia.
    rewrite (IH _ (S n)); [| |lia].
    - rewrite Htr, sleeps_app, Hsl. destruct (decide _); by rewrite app_nil_r.
    - destruct (do_call_self s c) as (_ & [->|[t ->]] & _); [lia|].
      pose proof (deque_append_grows (_window (self s)) t). lia. }
  intros Hlen. apply (Hgen cs (boot api_key w) 0%nat); cbn; lia.
Qed.

(** ** The dispatcher: status, body shape, key *)

(** X7. A response with an error status (400 to 599).  With a JSON body
    the dispatcher logs the body and raises HTTPError.  With a body that is
    not JSON it raises ValueError instead: [request.json()] fails inside
    the debug line, before [raise_for_status] is reached.  Either way the
    request is the last thing but that log record; no "completed" record
    is written. *)
Theorem error_status_raises st json auth service params s :
  ok st = false →
  credentials (_key (self s)) = Return auth →
  let run := _make_request (Response st json) service params s in
  run.2 = Raise (match json with Some _ => HTTPError | None => ValueError end) ∧
  ∃ tr url,
    trace (world run.1) =
      (tr ++ EvGet {| req_url := url; req_params := params;
                      req_auth := auth; req_timeout := 3 |}
          :: match json with
             | Some b => [EvLog (DebugResponseBody b)]
             | None => []
             end)%list.
Proof.
  intros Hok Hc run. subst run.
  destruct (make_request_sent (Response st json) service params s auth Hc)
    as (url & _ & ->).
  cbn [fst snd reply_outcome]. rewrite Hok. split.
  - by destruct json.
  - eexists _, url. unfold add_events. cbn [world trace].
    by destruct json.
Qed.

(** X8. A JSON array as body counts as its first element: for a success
    status the dispatcher does the same with [[x, ...]] as with [x] (when
    [x] is not an array itself), and an empty array makes it raise
    IndexError. *)
Theorem list_body_is_first_element st service params s :
  ok st = true →
  (∀ x rest, (∀ l, x ≠ VList l) →
     _make_request (Response st (Some (VList (x :: rest)))) service params s
       = _make_request (Response st (Some x)) service params s) ∧
  (∀ auth, credentials (_key (self s)) = Return auth →
     (_make_request (Response st (Some (VList []))) service params s).2
       = Raise IndexError).
Proof.
  intros Hok. split.
  - intros x rest Hx.
    destruct (make_request_unfold (Response st (Some (VList (x :: rest))))
                service params s) as (up & url & Hurl & ->).
    destruct (make_request_unfold (Response st (Some x)) service params s)
      as (up' & url' & Hurl' & ->).
    rewrite Hurl in Hurl'. injection Hurl' as <- <-.
    cbn zeta. destruct (make_auth up); [|done].
    cbn [reply_outcome]. rewrite Hok. cbn [fst snd].
    f_equal. cbn. unfold unwrap_body. cbn.
    destruct x; try reflexivity. by destruct (Hx l).
  - intros auth Hc.
    destruct (make_request_sent (Response st (Some (VList []))) service params s
                auth Hc) as (url & _ & ->).
    cbn. by rewrite Hok.
Qed.

Lemma credentials_plain key :
  str_in "@" key = false → credentials key = Return None.
Proof. unfold credentials. by intros ->. Qed.

Lemma make_url_plain key service :
  str_in "@" key = false → make_url key service = Return (None, key ++ "/" ++ service).
Proof.
  intros Hk. unfold make_url. rewrite Hk, (split_without _ _ Hk). reflexivity.
Qed.

Lemma make_url_at up base service :
  str_in "@" up = false → str_in "@" base = false →
  make_url (up ++ "@" ++ base) service = Return (Some up, base ++ "/" ++ service).
Proof.
  intros Hup Hbase. unfold make_url.
  change ("@" ++ base) with (String "@" base).
  rewrite str_in_at, (split_at _ _ _ Hup), (split_without _ _ Hbase).
  reflexivity.
Qed.

(** the request a run of the dispatcher sent, given what the key yields *)
Lemma make_request_gets_of net service params s up url auth :
  make_url (_key (self s)) service = Return (up, url) →
  make_auth up = Return auth →
  gets (trace (world (_make_request net service params s).1)) =
    (gets (trace (world s)) ++
     [{| req_url := url; req_params := params;
         req_auth := auth; req_timeout := 3 |}])%list.
Proof.
  intros Hurl Hauth.
  destruct (make_request_unfold net service params s) as (up' & url' & Hurl' & ->).
  rewrite Hurl in Hurl'. injection Hurl' as <- <-.
  cbn zeta. rewrite Hauth. cbn [fst]. apply gets_sent.
Qed.

(** X9. A key without "@" is the base URL: the request goes to
    [key/service] with the given parameters, no [auth] and a timeout of 3
    seconds. *)
Theorem plain_key_request net service params s :
  str_in "@" (_key (self s)) = false →
  gets (trace (world (_make_request net service params s).1)) =
    (gets (trace (world s)) ++
     [{| req_url := _key (self s) ++ "/" ++ service; req_params := params;
         req_auth := None; req_timeout := 3 |}])%list.
Proof.
  intros Hk.
  apply (make_request_gets_of _ _ _ _ None); [by apply make_url_plain|done].
Qed.

(** X10. A key [user:password@base]: the request goes to [base/service]
    with [auth = (user, password)]. *)
Theorem login_key_request net service params s user password base :
  _key (self s) = (user ++ ":" ++ password) ++ "@" ++ base →
  str_in "@" (user ++ ":" ++ password) = false →
  str_in ":" user = false → str_in ":" password = false →
  str_in "@" base = false →
  gets (trace (world (_make_request net service params s).1)) =
    (gets (trace (world s)) ++
     [{| req_url := base ++ "/" ++ service; req_params := params;
         req_auth := Some (user, password); req_timeout := 3 |}])%list.
Proof.
  intros Hkey Hup Huser Hpw Hbase.
  apply (make_request_gets_of _ _ _ _ (Some (user ++ ":" ++ password))).
  - rewrite Hkey. by apply make_url_at.
  - unfold make_auth, truthy.
    rewrite bool_decide_eq_false_2 by (by destruct user).
    cbn [negb default from_option id].
    change (":" ++ password) with (String ":" password).
    rewrite (split_at _ _ _ Huser), (split_without _ _ Hpw). reflexivity.
Qed.

(** X11. A key with an "@" but no ":" before it ([token@base]): building
    [auth] raises IndexError.  By then the dispatch is announced and
    stamped in the window, so it counts against the rate limit, but no
    request is sent. *)
Theorem token_key_raises net service params s token base :
  _key (self s) = token ++ "@" ++ base →
  token ≠ "" →
  str_in "@" token = false → str_in ":" token = false →
  str_in "@" base = false →
  let run := _make_request net service params s in
  run.2 = Raise IndexError ∧
  gets (trace (world run.1)) = gets (trace (world s)) ∧
  dispatches (trace (world run.1)) = S (dispatches (trace (world s))) ∧
  ∃ t, _window (self run.1)
         = deque_append _queries_per_second (_window (self s)) t.
Proof.
  intros Hkey Hne Hat Hcolon Hbase run.
  assert (run = (stamp (add_events [EvLog (DebugSending service)] (after_wait s)),
                 Raise IndexError)) as Hrun.
  { subst run.
    destruct (make_request_unfold net service params s) as (up & url & Hurl & ->).
    rewrite Hkey, make_url_at in Hurl by done. injection Hurl as <- <-.
    cbn zeta. unfold make_auth, truthy.
    rewrite bool_decide_eq_false_2 by done. cbn [negb default from_option id].
    by rewrite (split_without _ _ Hcolon). }
  pose proof (make_request_trace net service params s run.1 run.2
                (surjective_pairing _)) as [_ Hd].
  pose proof (make_request_self net service params s run.1 run.2
                (surjective_pairing _)) as (_ & _ & _ & Hw).
  split; [by rewrite Hrun|]. split; [|split; [exact Hd|eauto]].
  rewrite Hrun. unfold stamp, add_events. cbn [fst world trace].
  rewrite gets_app, gets_after_wait. cbn. by rewrite app_nil_r.
Qed.

(** ** The operations: which failure, which log line *)

Lemma handler_log_by_clause op e : handler_log op e = EvLog <$> clause_log op e.
Proof. destruct e; reflexivity. Qed.

(** X12. When the dispatcher raises, the class of the exception picks the
    log line: HTTPError its own; Timeout, ConnectTimeout and ReadTimeout
    the "connection issues" line; UserWarning the quota line; anything
    else, a plain ConnectionError or the ValueError of a provider error
    included, the "unexpected error" line and a stack trace.  The
    operation returns its default and stores nothing. *)
Theorem failure_is_logged_by_class net e s :
  (∀ A language s1,
     _geocode_hist (self s) !! lower A = None →
     _make_request net "search" (geocode_params (lower A) language) s
       = (s1, Raise e) →
     geocode net A language s
       = (add_events (EvLog <$> clause_log "Geocode" e) s1, Return None) ∧
     _geocode_hist (self s1) = _geocode_hist (self s)) ∧
  (∀ latlng language s1,
     _reverse_geocode_hist (self s) !! KStr (latlng_hist latlng) = None →
     _make_request net "reverse" (reverse_geocode_params latlng language) s
       = (s1, Raise e) →
     reverse_geocode net latlng language s
       = (add_events (EvLog <$> clause_log "Reverse Geocode" e) s1,
          Return _reverse_geocode_defaults) ∧
     _reverse_geocode_hist (self s1) = _reverse_geocode_hist (self s)).
Proof.
  split.
  - intros A language s1 Hmiss Hreq. split.
    + by rewrite geocode_run, Hmiss, Hreq, <- handler_log_by_clause.
    + by apply make_request_self in Hreq as (_ & -> & _).
  - intros latlng language s1 Hmiss Hreq. split.
    + by rewrite reverse_geocode_run, Hmiss, Hreq, <- handler_log_by_clause.
    + by apply make_request_self in Hreq as (_ & _ & -> & _).
Qed.

(** ** geocode: a match, and a match that does not convert *)

(** X13. A response with ["lat"] and ["lng"] that [float] accepts:
    [geocode] returns the pair, stores it under the lower-cased address,
    and a repeat call returns it from the dict. *)
Theorem geocode_resolves net net2 A language language' s s1 d lat_v lng_v lat lng :
  _geocode_hist (self s) !! lower A = None →
  _make_request net "search" (geocode_params (lower A) language) s
    = (s1, Return (VDict d)) →
  dict_get d "lat" = Some lat_v → py_float lat_v = Return lat →
  dict_get d "lng" = Some lng_v → py_float lng_v = Return lng →
  let s2 := store_geocode (lower A) (Some (lat, lng)) s1 in
  geocode net A language s = (s2, Return (Some (lat, lng))) ∧
  _geocode_hist (self s2) = <[lower A := Some (lat, lng)]> (_geocode_hist (self s)) ∧
  geocode net2 A language' s2 = (s2, Return (Some (lat, lng))).
Proof.
  intros Hmiss Hreq Hlat Hflat Hlng Hflng s2.
  assert (geocode net A language s = (s2, Return (Some (lat, lng)))) as Hrun.
  { rewrite geocode_run, Hmiss, Hreq. cbn.
    rewrite Hlat, Hlng. cbn. by rewrite Hflat, Hflng. }
  split; [exact Hrun|]. split.
  - apply make_request_self in Hreq as (_ & Hg & _). subst s2. cbn. by rewrite Hg.
  - rewrite geocode_run. subst s2. cbn. by rewrite lookup_insert_eq.
Qed.

(** X14. A response with ["lat"] and ["lng"] that [float] rejects:
    [geocode] returns [None] like for an address without match, but this
    [None] is not stored, so the next call for the address dispatches
    again. *)
Theorem geocode_unconvertible_is_retried
    net net2 A language language' s s1 d lat_v lng_v e :
  _geocode_hist (self s) !! lower A = None →
  _make_request net "search" (geocode_params (lower A) language) s
    = (s1, Return (VDict d)) →
  dict_get d "lat" = Some lat_v → dict_get d "lng" = Some lng_v →
  (lat ← py_float lat_v; lng ← py_float lng_v; Return (lat, lng)) = Raise e →
  let s2 := add_events (EvLog <$> clause_log "Geocode" e) s1 in
  geocode net A language s = (s2, Return None) ∧
  _geocode_hist (self s2) = _geocode_hist (self s) ∧
  dispatches (trace (world (geocode net2 A language' s2).1))
    = S (dispatches (trace (world s2))).
Proof.
  intros Hmiss Hreq Hlat Hlng Hconv s2.
  pose proof (make_request_self _ _ _ _ _ _ Hreq) as (_ & Hg & _).
  split; [|split].
  - rewrite geocode_run, Hmiss, Hreq. cbn. rewrite Hlat, Hlng. cbn.
    subst s2. rewrite <- handler_log_by_clause.
    revert Hconv. cbn.
    destruct (py_float lat_v) as [lat|e1]; cbn.
    + destruct (py_float lng_v) as [lng|e2]; cbn; [discriminate|].
      by intros [= ->].
    + by intros [= ->].
  - subst s2. cbn. exact Hg.
  - rewrite geocode_run. subst s2. cbn [add_events self].
    rewrite Hg, Hmiss.
    destruct (_make_request net2 _ _ _) as [s3 r] eqn:Hreq2.
    apply make_request_trace in Hreq2 as [_ Hd].
    destruct (r ≫= extract_latlng None); cbn [fst]; [exact Hd|].
    unfold add_events at 1; cbn [world trace].
    rewrite dispatches_app, dispatches_handler_log. lia.
Qed.

(** ** reverse_geocode: every field, and an address that is no object *)

(** X15. The whole mapping.  For a response whose ["address"] is the
    object [a], each field of the result is the value of the first key of
    its chain that [a] has, whatever that value is ([null] too), else the
    field's fallback: the "empty" sentinel for street number and street,
    the "regular" one for the rest.  The two address lines are built from
    street number and street.  The result is stored under the tuple. *)
Theorem reverse_geocode_maps_all_fields net latlng language s s1 resp a :
  _reverse_geocode_hist (self s) !! KStr (latlng_hist latlng) = None →
  _make_request net "reverse" (reverse_geocode_params latlng language) s
    = (s1, Return (VDict resp)) →
  dict_get resp "address" = Some (VDict a) →
  let pick keys fallback := first_match a keys (VStr fallback) in
  let num := pick ["house_number"; "house_name"] Unknown_EMPTY in
  let str := pick ["road"; "street"; "city_block"; "retail"] Unknown_EMPTY in
  let d :=
    {| street_num := num;
       street := str;
       address := VStr (py_format num ++ " " ++ py_format str);
       address_eu := VStr (py_format str ++ " " ++ py_format num);
       postal := pick ["postcode"] Unknown_REGULAR;
       neighborhood := pick ["neighbourhood"; "allotments"; "quarter"] Unknown_REGULAR;
       sublocality := pick ["city_district"; "district"; "borough"; "suburb";
                            "subdivision"] Unknown_REGULAR;
       city := pick ["village"; "town"; "city"; "municipality"] Unknown_REGULAR;
       county := pick ["county"; "state_district"] Unknown_REGULAR;
       state := pick ["region"; "state"] Unknown_REGULAR;
       country := pick ["country"; "country_code"] Unknown_REGULAR |} in
  ∃ s2,
    reverse_geocode net latlng language s = (s2, Return d) ∧
    _reverse_geocode_hist (self s2) !! KTuple latlng.1 latlng.2 = Some d.
Proof.
  intros Hmiss Hreq Haddr pick num str d.
  exists (store_reverse latlng d s1). split.
  - rewrite reverse_geocode_run, Hmiss, Hreq. cbn. unfold extract_dts. cbn.
    by rewrite Haddr.
  - cbn. apply lookup_insert_eq.
Qed.

(** X16. A response whose ["address"] is not an object (a string, a
    list, [null]): the first [details.get] raises AttributeError before any
    field is set, so the result is the all-default [dts]; the error goes to
    the "unexpected error" line and nothing is stored. *)
Theorem reverse_geocode_address_not_object net latlng language s s1 resp v :
  _reverse_geocode_hist (self s) !! KStr (latlng_hist latlng) = None →
  _make_request net "reverse" (reverse_geocode_params latlng language) s
    = (s1, Return (VDict resp)) →
  dict_get resp "address" = Some v →
  (∀ a, v ≠ VDict a) →
  reverse_geocode net latlng language s
    = (add_events [EvLog (ErrorUnexpected "Reverse Geocode" AttributeError);
                   EvLog (ErrorStackTrace AttributeError)] s1,
       Return _reverse_geocode_defaults) ∧
  _reverse_geocode_hist (self s1) = _reverse_geocode_hist (self s).
Proof.
  intros Hmiss Hreq Haddr Hv. split.
  - rewrite reverse_geocode_run, Hmiss, Hreq. cbn. unfold extract_dts. cbn.
    rewrite Haddr. cbn. destruct v; try reflexivity. by destruct (Hv d).
  - by apply make_request_self in Hreq as (_ & _ & -> & _).
Qed.

(** ** The window counts the dispatches *)

Lemma deque_append_length_eq w t :
  (length w ≤ 50)%nat →
  length (deque_append _queries_per_second w t) = Nat.min 50 (S (length w)).
Proof.
  intros Hle. rewrite deque_append_spec_record by done. unfold spec_record.
  destruct (decide (length w = 50%nat)) as [Heq|Hne].
  - destruct w; [discriminate|]. cbn [tail]. rewrite length_app.
    cbn [length] in *. lia.
  - rewrite length_app. cbn [length]. lia.
Qed.

(** A call either hits a cache and leaves window and trace alone, or runs
    the dispatcher once and stamps the window once. *)
Lemma do_call_stamp s c :
  ∃ evs,
    trace (world (do_call s c)) = (trace (world s) ++ evs)%list ∧
    ((dispatches evs = 0%nat ∧ _window (self (do_call s c)) = _window (self s)) ∨
     (dispatches evs = 1%nat ∧
      ∃ t, _window (self (do_call s c))
             = deque_append _queries_per_second (_window (self s)) t)).
Proof.
  assert (∀ net service params s1 r op e,
    _make_request net service params s = (s1, r) →
    (∃ evs, trace (world s1) = (trace (world s) ++ evs)%list ∧ dispatches evs = 1%nat) ∧
    (∃ evs, trace (world (add_events (handler_log op e) s1))
              = (trace (world s) ++ evs)%list ∧ dispatches evs = 1%nat) ∧
    ∃ t, _window (self s1) = deque_append _queries_per_second (_window (self s)) t)
    as Hrun.
  { intros net service params s1 r op e Hreq.
    pose proof (make_request_self _ _ _ _ _ _ Hreq) as (_ & _ & _ & Hw).
    apply make_request_events in Hreq as (evs & Htr & Hd & _).
    split; [eauto|]. split; [|eauto].
    exists (evs ++ handler_log op e)%list. unfold add_events. cbn [world trace].
    rewrite Htr, <- app_assoc, dispatches_app, dispatches_handler_log.
    split; [done|lia]. }
  destruct c as [net A language|net latlng language]; cbn [do_call].
  - rewrite geocode_run.
    destruct (_geocode_hist (self s) !! lower A).
    { exists []. rewrite app_nil_r. eauto. }
    destruct (_make_request _ _ _ s) as [s1 r] eqn:Hreq.
    destruct (r ≫= extract_latlng None) as [l|e]; cbn [fst].
    + destruct (Hrun _ _ _ _ _ "" Exception Hreq) as ((evs & ? & ?) & _ & Hw).
      exists evs. split; [done|]. right. by split.
    + destruct (Hrun _ _ _ _ _ "Geocode" e Hreq) as (_ & (evs & ? & ?) & Hw).
      exists evs. split; [done|]. right. by split.
  - rewrite reverse_geocode_run.
    destruct (_reverse_geocode_hist (self s) !! _).
    { exists []. rewrite app_nil_r. eauto. }
    destruct (_make_request _ _ _ s) as [s1 r] eqn:Hreq.
    destruct (r ≫= extract_dts _) as [d|e]; cbn [fst].
    + destruct (Hrun _ _ _ _ _ "" Exception Hreq) as ((evs & ? & ?) & _ & Hw).
      exists evs. split; [done|]. right. by split.
    + destruct (Hrun _ _ _ _ _ "Reverse Geocode" e Hreq) as (_ & (evs & ? & ?) & Hw).
      exists evs. split; [done|]. right. by split.
Qed.

(** X17. Every run of the dispatcher, and nothing else, stamps the
    window: after any sequence of calls on a new client the window holds as
    many stamps as the dispatcher ran since, capped at 50.  Failed requests
    and dispatches that sent nothing are counted like the others. *)
Theorem window_counts_dispatches api_key w cs :
  let s := do_calls (boot api_key w) cs in
  length (_window (self s))
    = Nat.min 50 (dispatches (trace (world s)) - dispatches (trace w)).
Proof.
  cbn zeta.
  apply (do_calls_keeps (fun s =>
    (dispatches (trace w) ≤ dispatches (trace (world s)))%nat ∧
    length (_window (self s))
      = Nat.min 50 (dispatches (trace (world s)) - dispatches (trace w)))
    ) with (cs := cs) (s := boot api_key w);
    [|split; [done|];
      change (length (_window (self (boot api_key w)))) with 0%nat;
      cbn [boot world]; lia].
  intros s c [Hge Hlen].
  destruct (do_call_stamp s c) as (evs & -> & [[Hd ->]|[Hd [t ->]]]);
    rewrite dispatches_app, Hd.
  - split; [lia|]. rewrite Hlen. f_equal. lia.
  - split; [lia|]. rewrite deque_append_length_eq by lia. lia.
Qed.

End Further.

(** * The model at work *)

Import Example.

(** C4, as the claim has it, fails.  The server answers the first call
    with 200 and the empty array: the call completes and returns [None],
    but [body[0]] raised IndexError, so nothing is stored, and the second
    call for the same address sends a second request. *)
Lemma geocode_second_call_counterexample :
  let run1 := geocode (Response 200 (Some (VList []))) "Berlin" "en" s0 in
  let run2 := geocode berlin_reply "Berlin" "en" run1.1 in
  run1.2 = Return None ∧
  _geocode_hist (self run1.1) !! "berlin" = None ∧
  length (gets (trace (world run1.1))) = 1%nat ∧
  length (gets (trace (world run2.1))) = 2%nat ∧
  run2.1 ≠ run1.1.
Proof.
  cbn zeta.
  assert (length (gets (trace (world
            (geocode (Response 200 (Some (VList []))) "Berlin" "en" s0).1))) = 1%nat)
    as Hone by (vm_compute; reflexivity).
  assert (length (gets (trace (world
            (geocode berlin_reply "Berlin" "en"
               (geocode (Response 200 (Some (VList []))) "Berlin" "en" s0).1).1)))
          = 2%nat) as Htwo by (vm_compute; reflexivity).
  split; [vm_compute; reflexivity|]. split; [vm_compute; reflexivity|].
  split; [exact Hone|]. split; [exact Htwo|].
  intros Heq. rewrite Heq, Hone in Htwo. discriminate.
Qed.

Lemma geocode_second_call_witness :
  (let s1 := (geocode berlin_reply "Berlin" "en" s0).1 in
   _geocode_hist (self s1) !! "berlin" = Some None ∧
   geocode (GetRaises ConnectionError) "BERLIN" "de" s1 = (s1, Return None)) ∧
  (let s1 := (geocode (GetRaises ReadTimeout) "Berlin" "en" s0).1 in
   dispatches (trace (world (geocode berlin_reply "BERLIN" "de" s1).1))
     = S (dispatches (trace (world s1)))).
Proof.
  split; cbn zeta.
  - destruct (geocode_second_call berlin_reply (GetRaises ConnectionError)
                "Berlin" "BERLIN" "en" "de" s0
                (geocode berlin_reply "Berlin" "en" s0).1 None)
      as (Hstored & _ & _).
    + reflexivity.
    + apply run_eq; [reflexivity|]. vm_compute. reflexivity.
    + apply Hstored. exists None. vm_compute. reflexivity.
  - destruct (geocode_second_call (GetRaises ReadTimeout) berlin_reply
                "Berlin" "BERLIN" "en" "de" s0
                (geocode (GetRaises ReadTimeout) "Berlin" "en" s0).1 None)
      as (_ & Hnone & _).
    + reflexivity.
    + apply run_eq; [reflexivity|]. vm_compute. reflexivity.
    + apply Hnone. vm_compute. reflexivity.
Defined.

Lemma unable_to_geocode_witness :
  ∃ s' s1,
    _make_request unable_reply "search" (geocode_params "atlantis" "en") s0
      = (s', Return (VDict [])) ∧
    geocode unable_reply "Atlantis" "en" s0 = (s1, Return None) ∧
    _geocode_hist (self s1) = <["atlantis" := None]> ∅ ∧
    geocode berlin_reply "Atlantis" "en" s1 = (s1, Return None).
Proof.
  apply (unable_to_geocode_is_memoized berlin_reply "Atlantis" "en" "en" 200 None s0);
    reflexivity.
Defined.

Lemma geocode_ignores_lon_witness :
  ∃ s1,
    geocode berlin_reply "Berlin" "en" s0 = (s1, Return None) ∧
    _geocode_hist (self s1) = <["berlin" := None]> ∅.
Proof.
  eapply (geocode_ignores_lon berlin_reply "Berlin" "en" s0 _
            [("lat", VStr "52.51704"); ("lon", VStr "13.38886")]
            _ 5251704 _ 1338886).
  - reflexivity.
  - apply run_eq; reflexivity.
  - reflexivity.
  - reflexivity.
  - reflexivity.
  - reflexivity.
  - reflexivity.
Defined.

Lemma rate_limiter_witness :
  let s' := (_make_request berlin_reply "search" [] busy).1 in
  (∃ evs,
     trace (world s') = EvSleep 60000 :: EvLog (DebugSending "search") :: evs ∧
     sleeps evs = []) ∧
  _window (self s') = (replicate 49 1000000 ++ [1100000])%list ∧
  (length (_window (self s')) ≤ 50)%nat.
Proof.
  assert (length (_window (self busy)) ≤ 50)%nat as Hlen by (cbn; lia).
  exact (rate_limiter_rule berlin_reply "search" [] busy _ _ Hlen
           (surjective_pairing _)).
Defined.

Lemma errors_are_contained_witness :
  (∃ logs, logs ≠ [] ∧ Forall (fun ev => ∃ rec, ev = EvLog rec) logs ∧
     geocode bad_lat_reply "Berlin" "en" s0
       = (add_events logs (geocode_try bad_lat_reply "berlin" "en" (None, s0)).1.2,
          Return None)) ∧
  (∃ logs, logs ≠ [] ∧ Forall (fun ev => ∃ rec, ev = EvLog rec) logs ∧
     reverse_geocode flat_address_reply coord "en" s0
       = (add_events logs
            (reverse_geocode_try flat_address_reply coord "en"
               (_reverse_geocode_defaults, s0)).1.2,
          Return _reverse_geocode_defaults)).
Proof.
  split.
  - destruct (errors_are_contained bad_lat_reply s0) as (_ & _ & Hg & _).
    apply (Hg "Berlin" "en" None _ ValueError); [reflexivity|].
    repeat apply run_eq; reflexivity.
  - destruct (errors_are_contained flat_address_reply s0) as (_ & _ & _ & Hr).
    apply (Hr coord "en" _reverse_geocode_defaults _ AttributeError); [reflexivity|].
    repeat apply run_eq; reflexivity.
Defined.

Lemma provider_error_witness :
  (∃ s', geocode quota_reply "Berlin" "en" s0
           = (add_events [EvLog (ErrorUnexpected "Geocode" ValueError);
                          EvLog (ErrorStackTrace ValueError)] s', Return None) ∧
         _geocode_hist (self s') = ∅) ∧
  (∃ s', reverse_geocode quota_reply coord "en" s0
           = (add_events [EvLog (ErrorUnexpected "Reverse Geocode" ValueError);
                          EvLog (ErrorStackTrace ValueError)] s',
              Return _reverse_geocode_defaults) ∧
         _reverse_geocode_hist (self s') = ∅).
Proof.
  destruct (provider_error_is_not_cached 200
              [("error", VStr "quota exceeded")] (VStr "quota exceeded") None s0)
    as (_ & Hg & Hr); try reflexivity.
  split.
  - apply (Hg "Berlin" "en"). reflexivity.
  - apply (Hr coord "en"). reflexivity.
Defined.

Lemma geocode_sends_builtin_format_key_witness :
  ∃ url params,
    (∃ up, make_url "https://nominatim.example" "search" = Return (up, url)) ∧
    gets (trace (world (geocode berlin_reply "Berlin" "en" s0).1)) =
      [{| req_url := url; req_params := params;
          req_auth := None; req_timeout := 3 |}] ∧
    params = [(KStr "q", VStr "berlin");
              (KStr "accept-language", VStr "en");
              (KBuiltin "format", VStr "json")] ∧
    KStr "format" ∉ params.*1.
Proof.
  apply (geocode_sends_builtin_format_key berlin_reply "Berlin" "en" None s0);
    reflexivity.
Defined.

Lemma reverse_geocode_never_hits_witness :
  let s1 := (reverse_geocode main_st_reply coord "en" s0).1 in
  let s2 := (reverse_geocode main_st_reply coord "en" s1).1 in
  _reverse_geocode_hist (self s1) !! KStr "12.34567,76.54321" = None ∧
  dispatches (trace (world s2)) = S (dispatches (trace (world s1))).
Proof.
  cbn zeta.
  replace "12.34567,76.54321" with (latlng_hist coord) by (vm_compute; reflexivity).
  apply (reverse_geocode_never_hits main_st_reply main_st_reply coord "en" s0
           _ (reverse_geocode main_st_reply coord "en" s0).2
           _ (reverse_geocode main_st_reply coord "en"
                (reverse_geocode main_st_reply coord "en" s0).1).2).
  - vm_compute. reflexivity.
  - apply surjective_pairing.
  - apply surjective_pairing.
Defined.

(** The run behind C1: the result of the first call sits under the tuple,
    nothing sits under the string the lookup uses, and the second call
    sends the same request again. *)
Example reverse_geocode_twice :
  let s1 := (reverse_geocode main_st_reply coord "en" s0).1 in
  let s2 := (reverse_geocode main_st_reply coord "en" s1).1 in
  latlng_hist coord = "12.34567,76.54321" ∧
  is_Some (_reverse_geocode_hist (self s1) !! KTuple 1234567 7654321) ∧
  _reverse_geocode_hist (self s1) !! KStr "12.34567,76.54321" = None ∧
  length (gets (trace (world s1))) = 1%nat ∧
  length (gets (trace (world s2))) = 2%nat.
Proof.
  cbn zeta. repeat split; try (vm_compute; reflexivity).
  vm_compute. eexists. reflexivity.
Qed.

(** C3, as the claim has it, fails: the response has no ["address"], the
    result is the all-default [dts], and the memoization dict, empty
    before, has an entry afterwards. *)
Lemma reverse_geocode_without_address_counterexample :
  let run := reverse_geocode no_address_reply coord "en" s0 in
  run.2 = Return _reverse_geocode_defaults ∧
  _reverse_geocode_hist (self s0) !! KTuple 1234567 7654321 = None ∧
  _reverse_geocode_hist (self run.1) !! KTuple 1234567 7654321
    = Some _reverse_geocode_defaults ∧
  _reverse_geocode_hist (self run.1) ≠ _reverse_geocode_hist (self s0).
Proof.
  assert (_reverse_geocode_hist
            (self (reverse_geocode no_address_reply coord "en" s0).1)
            !! KTuple 1234567 7654321 = Some _reverse_geocode_defaults) as Hafter.
  { vm_compute. reflexivity. }
  cbn zeta. split; [vm_compute; reflexivity|]. split; [reflexivity|].
  split; [exact Hafter|].
  intros Heq. rewrite Heq in Hafter. discriminate.
Qed.

Lemma reverse_geocode_without_address_witness :
  ∃ s1,
    reverse_geocode no_address_reply coord "en" s0
      = (s1, Return _reverse_geocode_defaults) ∧
    ∃ k, _reverse_geocode_hist (self s1) = <[k := _reverse_geocode_defaults]> ∅.
Proof.
  eapply (reverse_geocode_without_address no_address_reply coord "en" s0 _
            (VDict [("display_name", VStr "Indian Ocean")])).
  - reflexivity.
  - apply run_eq; reflexivity.
  - reflexivity.
Defined.

Lemma reverse_geocode_field_mapping_witness :
  ∃ s1 d,
    reverse_geocode main_st_reply coord "en" s0 = (s1, Return d) ∧
    street d = VStr "Main St" ∧
    d = {| street_num := VStr "42";
           street := VStr "Main St";
           address := VStr "42 Main St";
           address_eu := VStr "Main St 42";
           postal := VStr "unknown";
           neighborhood := VStr "unknown";
           sublocality := VStr "unknown";
           city := VStr "unknown";
           county := VStr "unknown";
           state := VStr "unknown";
           country := VStr "unknown" |}.
Proof.
  destruct (reverse_geocode_field_mapping main_st_reply coord "en" s0
              (_make_request main_st_reply "reverse"
                 (reverse_geocode_params coord "en") s0).1
              [("address", VDict [("road", VStr "Main St");
                                  ("house_number", VStr "42")])]
              [("road", VStr "Main St"); ("house_number", VStr "42")])
    as (s1 & d & Hrun & Hstreet & Hd).
  - reflexivity.
  - apply run_eq; reflexivity.
  - reflexivity.
  - exists s1, d. split; [exact Hrun|]. split; [exact Hstreet|].
    apply Hd. reflexivity.
Defined.

(** ** Further runs *)

Lemma geocode_keys_are_lower_case_witness :
  is_Some (_geocode_hist
             (self (do_calls (boot "https://nominatim.example" (world s0)) three_calls))
             !! "berlin") ∧
  lower "berlin" = "berlin".
Proof.
  assert (is_Some (_geocode_hist
             (self (do_calls (boot "https://nominatim.example" (world s0)) three_calls))
             !! "berlin")) as Hin.
  { vm_compute. eexists. reflexivity. }
  split; [exact Hin|].
  exact (geocode_keys_are_lower_case _ _ _ _ Hin).
Defined.

Lemma memoized_geocode_is_permanent_witness :
  let s := (geocode resolved_reply "Berlin" "en" s0).1 in
  let later := do_calls s [CallReverse main_st_reply coord "en";
                           CallGeocode unable_reply "Atlantis" "en"] in
  geocode (GetRaises Timeout) "BERLIN" "de" later
    = (later, Return (Some berlin_latlng)).
Proof.
  cbn zeta.
  apply (memoized_geocode_is_permanent "BERLIN" (Some berlin_latlng)).
  vm_compute. reflexivity.
Defined.

Lemma first_fifty_calls_never_sleep_witness :
  sleeps (trace (world (do_calls (boot "https://nominatim.example" (world s0))
                          three_calls))) = [].
Proof.
  apply (first_fifty_calls_never_sleep "https://nominatim.example" (world s0)
           three_calls).
  cbn. lia.
Defined.

Lemma error_status_raises_witness :
  (_make_request unavailable_reply "search" [] s0).2 = Raise HTTPError ∧
  (_make_request gateway_reply "search" [] s0).2 = Raise ValueError.
Proof.
  split.
  - exact (proj1 (error_status_raises 503 (Some (VDict [("message", VStr "down")]))
                    None "search" [] s0 eq_refl eq_refl)).
  - exact (proj1 (error_status_raises 502 None None "search" [] s0 eq_refl eq_refl)).
Defined.

Lemma list_body_is_first_element_witness :
  _make_request berlin_reply "search" [] s0
    = _make_request
        (Response 200 (Some (VDict [("lat", VStr "52.51704");
                                    ("lon", VStr "13.38886")]))) "search" [] s0 ∧
  (_make_request (Response 200 (Some (VList []))) "search" [] s0).2
    = Raise IndexError.
Proof.
  destruct (list_body_is_first_element 200 "search" [] s0 eq_refl) as [Hfirst Hempty].
  split.
  - apply Hfirst. intros l. discriminate.
  - apply (Hempty None). reflexivity.
Defined.

Lemma plain_key_request_witness :
  gets (trace (world (_make_request berlin_reply "search" [] s0).1)) =
    [{| req_url := "https://nominatim.example/search"; req_params := [];
        req_auth := None; req_timeout := 3 |}].
Proof.
  exact (plain_key_request berlin_reply "search" [] s0 eq_refl).
Defined.

Lemma login_key_request_witness :
  gets (trace (world (_make_request berlin_reply "search" [] with_login).1)) =
    [{| req_url := "https://nominatim.example/search"; req_params := [];
        req_auth := Some ("user", "secret"); req_timeout := 3 |}].
Proof.
  exact (login_key_request berlin_reply "search" [] with_login
           "user" "secret" "https://nominatim.example"
           eq_refl eq_refl eq_refl eq_refl eq_refl).
Defined.

Lemma token_key_raises_witness :
  let run := _make_request berlin_reply "search" [] with_token in
  run.2 = Raise IndexError ∧
  gets (trace (world run.1)) = [] ∧
  dispatches (trace (world run.1)) = 1%nat ∧
  ∃ t, _window (self run.1) = deque_append _queries_per_second [] t.
Proof.
  refine (token_key_raises berlin_reply "search" [] with_token
            "token" "https://nominatim.example" eq_refl _ eq_refl eq_refl eq_refl).
  discriminate.
Defined.

Lemma failure_is_logged_by_class_witness :
  (geocode (GetRaises ConnectTimeout) "Berlin" "en" s0
     = (add_events [EvLog (ErrorConnection "Geocode" ConnectTimeout)]
          (_make_request (GetRaises ConnectTimeout) "search"
             (geocode_params "berlin" "en") s0).1,
        Return None)) ∧
  (reverse_geocode (GetRaises ConnectionError) coord "en" s0
     = (add_events [EvLog (ErrorUnexpected "Reverse Geocode" ConnectionError);
                    EvLog (ErrorStackTrace ConnectionError)]
          (_make_request (GetRaises ConnectionError) "reverse"
             (reverse_geocode_params coord "en") s0).1,
        Return _reverse_geocode_defaults)).
Proof.
  split.
  - destruct (failure_is_logged_by_class (GetRaises ConnectTimeout) ConnectTimeout s0)
      as [Hg _].
    apply (Hg "Berlin" "en"); [reflexivity|].
    apply run_eq; [reflexivity|]. vm_compute. reflexivity.
  - destruct (failure_is_logged_by_class (GetRaises ConnectionError) ConnectionError s0)
      as [_ Hr].
    apply (Hr coord "en"); [vm_compute; reflexivity|].
    apply run_eq; [reflexivity|]. vm_compute. reflexivity.
Defined.

Lemma geocode_resolves_witness :
  let s1 := (_make_request resolved_reply "search" (geocode_params "berlin" "en") s0).1 in
  let s2 := store_geocode "berlin" (Some berlin_latlng) s1 in
  geocode resolved_reply "Berlin" "en" s0 = (s2, Return (Some berlin_latlng)) ∧
  _geocode_hist (self s2) = <["berlin" := Some berlin_latlng]> ∅ ∧
  geocode (GetRaises Timeout) "Berlin" "en" s2
    = (s2, Return (Some berlin_latlng)).
Proof.
  apply (geocode_resolves resolved_reply (GetRaises Timeout) "Berlin" "en" "en" s0 _
           [("lat", VStr "52.51704"); ("lng", VStr "13.38886")]
           (VStr "52.51704") (VStr "13.38886")).
  - reflexivity.
  - apply run_eq; [reflexivity|]. vm_compute. reflexivity.
  - reflexivity.
  - vm_compute. reflexivity.
  - reflexivity.
  - vm_compute. reflexivity.
Defined.

Lemma geocode_unconvertible_is_retried_witness :
  let s1 := (_make_request bad_lat_reply "search" (geocode_params "berlin" "en") s0).1 in
  let s2 := add_events [EvLog (ErrorUnexpected "Geocode" ValueError);
                        EvLog (ErrorStackTrace ValueError)] s1 in
  geocode bad_lat_reply "Berlin" "en" s0 = (s2, Return None) ∧
  _geocode_hist (self s2) = ∅ ∧
  dispatches (trace (world (geocode resolved_reply "Berlin" "en" s2).1))
    = S (dispatches (trace (world s2))).
Proof.
  apply (geocode_unconvertible_is_retried bad_lat_reply resolved_reply
           "Berlin" "en" "en" s0 _
           [("lat", VStr "north"); ("lng", VStr "13.38886")]
           (VStr "north") (VStr "13.38886") ValueError).
  - reflexivity.
  - apply run_eq; [reflexivity|]. vm_compute. reflexivity.
  - reflexivity.
  - reflexivity.
  - vm_compute. reflexivity.
Defined.

Lemma reverse_geocode_maps_all_fields_witness :
  ∃ s2 d,
    reverse_geocode null_road_reply coord "en" s0 = (s2, Return d) ∧
    street d = VNone ∧
    address d = VStr " None" ∧
    postal d = VStr "unknown" ∧
    _reverse_geocode_hist (self s2) !! KTuple 1234567 7654321 = Some d.
Proof.
  destruct (reverse_geocode_maps_all_fields null_road_reply coord "en" s0
              (_make_request null_road_reply "reverse"
                 (reverse_geocode_params coord "en") s0).1
              [("address", VDict [("road", VNone); ("street", VStr "Side St")])]
              [("road", VNone); ("street", VStr "Side St")])
    as (s2 & Hrun & Hstored).
  - reflexivity.
  - apply run_eq; [reflexivity|]. vm_compute. reflexivity.
  - reflexivity.
  - exists s2. eexists. split; [exact Hrun|].
    split; [reflexivity|]. split; [reflexivity|]. split; [reflexivity|].
    exact Hstored.
Defined.

Lemma reverse_geocode_address_not_object_witness :
  let s1 := (_make_request flat_address_reply "reverse"
               (reverse_geocode_params coord "en") s0).1 in
  reverse_geocode flat_address_reply coord "en" s0
    = (add_events [EvLog (ErrorUnexpected "Reverse Geocode" AttributeError);
                   EvLog (ErrorStackTrace AttributeError)] s1,
       Return _reverse_geocode_defaults) ∧
  _reverse_geocode_hist (self s1) = ∅.
Proof.
  apply (reverse_geocode_address_not_object flat_address_reply coord "en" s0 _
           [("address", VStr "Main St 42")] (VStr "Main St 42")).
  - reflexivity.
  - apply run_eq; [reflexivity|]. vm_compute. reflexivity.
  - reflexivity.
  - intros a. discriminate.
Defined.
